(** * API Response Quality Checker: a shallow embedding of [checker.py]

    The development follows [solutions/api_response_checker/checker.py]:

    - [Py] models the part of the Python runtime the checker relies on:
      text ([str] as a sequence of code points), dynamically typed values,
      exceptions, binary64 floats and the [str] methods the parser calls;
    - [Json] models the decoder behind [json.loads];
    - [Checker] is the translation of the dataclasses and of
      [ResponseQualityChecker], method by method;
    - the remaining sections state and prove the properties of the
      two-phase quality-report pipeline.

    The schema validator ([jsonschema.validate]), the serializer
    ([json.dumps]) and the assessment backend ([client.messages.create])
    are collaborators of the checker: they are section variables, so every
    statement holds for all of their behaviours.  The text of the
    interpreter's own error messages is that of CPython 3.11; interpreter
    resource limits (recursion depth, the digit limit of [int]) are not
    modelled. *)

From Stdlib Require Import ZArith NArith Ascii String Bool Lia List.
From Stdlib Require Import SpecFloat QArith Qround.
Close Scope Q_scope.
Import ListNotations.

Set Implicit Arguments.

(* ===================================================================== *)
(** * The Python runtime                                                   *)
(* ===================================================================== *)

Module Py.

(** ** Text *)

(** A Python [str] is a sequence of Unicode code points. *)
Definition char := N.
Definition str := list char.

Definition ord (a : ascii) : char := N_of_ascii a.

(** [py "abc"] is the [str] whose characters are those of an ASCII
    literal. *)
Definition py (s : string) : str := map ord (list_ascii_of_string s).

Definition dquote : str := [34%N].
Definition newline : char := 10%N.

(** [q "abc"] is the text [abc] between double quotes. *)
Definition q (s : string) : str := dquote ++ py s ++ dquote.

Fixpoint str_eqb (a b : str) : bool :=
  match a, b with
  | [], [] => true
  | x :: a', y :: b' => N.eqb x y && str_eqb a' b'
  | _, _ => false
  end.

(** [str.isspace] on one character. *)
Definition isspace (c : char) : bool :=
  ((9 <=? c) && (c <=? 13) || (28 <=? c) && (c <=? 32)
   || (c =? 133) || (c =? 160) || (c =? 5760)
   || (8192 <=? c) && (c <=? 8202) || (c =? 8232) || (c =? 8233)
   || (c =? 8239) || (c =? 8287) || (c =? 12288))%N.

Fixpoint lstrip (s : str) : str :=
  match s with
  | c :: r => if isspace c then lstrip r else s
  | [] => []
  end.

Definition rstrip (s : str) : str := rev (lstrip (rev s)).

(** [s.strip()] *)
Definition strip (s : str) : str := rstrip (lstrip s).

(** [s.startswith(prefix)] *)
Fixpoint startswith (s prefix : str) : bool :=
  match prefix, s with
  | [], _ => true
  | p :: prefix', c :: s' => N.eqb c p && startswith s' prefix'
  | _ :: _, [] => false
  end.

(** [s.split(sep)] for a one-character separator. *)
Fixpoint split (sep : char) (s : str) : list str :=
  match s with
  | [] => [[]]
  | c :: r =>
      if N.eqb c sep then [] :: split sep r
      else match split sep r with
           | l :: ls => (c :: l) :: ls
           | [] => [[c]]
           end
  end.

(** [sep.join(parts)] *)
Fixpoint join (sep : str) (parts : list str) : str :=
  match parts with
  | [] => []
  | [p] => p
  | p :: rest => p ++ sep ++ join sep rest
  end.

(** [l[start:stop]]: a negative index counts from the end, and both
    indices are clipped to the length. *)
Definition slice_index (n i : Z) : nat :=
  Z.to_nat (if (i <? 0)%Z then Z.max (i + n) 0 else Z.min i n).

Definition slice {A} (l : list A) (start stop : Z) : list A :=
  let n := Z.of_nat (List.length l) in
  let a := slice_index n start in
  let b := slice_index n stop in
  firstn (b - a) (skipn a l).

(** Decimal rendering of a natural number, as [%d] prints it. *)
Fixpoint decimal_fuel (fuel : nat) (n : N) (acc : str) : str :=
  match fuel with
  | O => acc
  | S fuel' =>
      let acc' := (48 + n mod 10)%N :: acc in
      if (n <? 10)%N then acc' else decimal_fuel fuel' (n / 10)%N acc'
  end.

Definition decimal (n : nat) : str :=
  decimal_fuel (S n) (N.of_nat n) [].

(** ** Values *)

Definition float := spec_float.
Definition prec : Z := 53.
Definition emax : Z := 1024.

(** The values a JSON document decodes to, which are also the values a
    response or a schema is made of. A [dict] keeps its keys in insertion
    order. *)
#[warnings="-register-all"]
Inductive pyobj :=
| PyNone
| PyBool (b : bool)
| PyInt (z : Z)
| PyFloat (f : float)
| PyStr (s : str)
| PyList (l : list pyobj)
| PyDict (d : list (str * pyobj)).

(** [type(x).__name__] *)
Definition type_name (x : pyobj) : str :=
  match x with
  | PyNone => py "NoneType"
  | PyBool _ => py "bool"
  | PyInt _ => py "int"
  | PyFloat _ => py "float"
  | PyStr _ => py "str"
  | PyList _ => py "list"
  | PyDict _ => py "dict"
  end.

(** Truth value of an optional string: [None] and [''] are false. *)
Definition truthy (o : option str) : bool :=
  match o with
  | Some (_ :: _) => true
  | _ => false
  end.

(** ** Exceptions *)

Inductive exn :=
| JSONDecodeError (msg : str) (pos lineno colno : nat)
| KeyError (key : str)
| AttributeError (msg : str)
| TypeError (msg : str)
| ValueError (msg : str)
| OverflowError (msg : str)
| IndexError (msg : str)
| NotImplementedError (msg : str)
| ValidationError (message : str) (rendered : str)
| SchemaError (message : str) (rendered : str)
| OtherException (cls : str) (msg : str)
| NonException (cls : str) (msg : str).

(** [isinstance(e, Exception)]: everything but the exits and interrupts
    that derive from [BaseException] alone. *)
Definition is_Exception (e : exn) : bool :=
  match e with
  | NonException _ _ => false
  | _ => true
  end.

(** [str(e)]. A [KeyError] prints the [repr] of its key; the keys of this
    program are plain identifiers, whose [repr] is the key between single
    quotes. *)
Definition exn_str (e : exn) : str :=
  match e with
  | JSONDecodeError msg pos lineno colno =>
      msg ++ py ": line " ++ decimal lineno ++ py " column " ++ decimal colno
          ++ py " (char " ++ decimal pos ++ py ")"
  | KeyError key => py "'" ++ key ++ py "'"
  | AttributeError msg | TypeError msg | ValueError msg | OverflowError msg
  | IndexError msg | NotImplementedError msg => msg
  | ValidationError _ rendered | SchemaError _ rendered => rendered
  | OtherException _ msg | NonException _ msg => msg
  end.

(** The outcome of a call: a value, or a raised exception. *)
Inductive result (A : Type) :=
| Return (a : A)
| Raise (e : exn).
Arguments Raise {A} e.

Definition bind {A B} (m : result A) (k : A -> result B) : result B :=
  match m with
  | Return a => k a
  | Raise e => Raise e
  end.

(** [try: body except <handles>: handler] *)
Definition try_except {A} (body : result A) (handles : exn -> bool)
    (handler : exn -> result A) : result A :=
  match body with
  | Return a => Return a
  | Raise e => if handles e then handler e else Raise e
  end.

(** ** Dictionaries *)

Fixpoint dict_lookup (d : list (str * pyobj)) (k : str) : option pyobj :=
  match d with
  | [] => None
  | (k', v) :: d' => if str_eqb k' k then Some v else dict_lookup d' k
  end.

(** [d[k] = v]: an existing key keeps its place. *)
Fixpoint dict_set (d : list (str * pyobj)) (k : str) (v : pyobj)
    : list (str * pyobj) :=
  match d with
  | [] => [(k, v)]
  | (k', v') :: d' =>
      if str_eqb k' k then (k', v) :: d' else (k', v') :: dict_set d' k v
  end.

(** [dict(pairs)] *)
Definition dict_of_pairs (pairs : list (str * pyobj)) : list (str * pyobj) :=
  fold_left (fun d kv => dict_set d (fst kv) (snd kv)) pairs [].

(** [x[key]] for a string key. *)
Definition getitem (x : pyobj) (key : str) : result pyobj :=
  match x with
  | PyDict d =>
      match dict_lookup d key with
      | Some v => Return v
      | None => Raise (KeyError key)
      end
  | PyStr _ => Raise (TypeError (py "string indices must be integers, not 'str'"))
  | PyList _ =>
      Raise (TypeError (py "list indices must be integers or slices, not str"))
  | _ => Raise (TypeError (py "'" ++ type_name x ++ py "' object is not subscriptable"))
  end.

(** [x.get(key, default)] *)
Definition get (x : pyobj) (key : str) (default : pyobj) : result pyobj :=
  match x with
  | PyDict d =>
      match dict_lookup d key with
      | Some v => Return v
      | None => Return default
      end
  | _ => Raise (AttributeError
                  (py "'" ++ type_name x ++ py "' object has no attribute 'get'"))
  end.

(** [iter(x)], run to the end. *)
Definition iterate (x : pyobj) : result (list pyobj) :=
  match x with
  | PyList l => Return l
  | PyStr s => Return (map (fun c => PyStr [c]) s)
  | PyDict d => Return (map (fun kv => PyStr (fst kv)) d)
  | _ => Raise (TypeError (py "'" ++ type_name x ++ py "' object is not iterable"))
  end.

(** ** Binary64 arithmetic *)

(** [float(z)] for an integer: the nearest double, ties to even. *)
Definition float_of_int (z : Z) : result float :=
  match binary_normalize prec emax z 0 false with
  | S754_infinity _ => Raise (OverflowError (py "int too large to convert to float"))
  | f => Return f
  end.

(** The double nearest to [(-1)^s * m * 10^e], which is what [float]
    makes of a decimal numeral. *)
Definition float_of_decimal (s : bool) (m : Z) (e : Z) : float :=
  match m with
  | Zpos p =>
      if (0 <=? e)%Z then binary_round prec emax s (p * Z.to_pos (10 ^ e)) 0
      else
        let d := (10 ^ (- e))%Z in
        let k := Z.max 0 (prec + 2 + Zdigits2 d - Zdigits2 m) in
        let n := (m * 2 ^ k)%Z in
        let r := (n mod d)%Z in
        let loc := if (r =? 0)%Z then loc_Exact
                   else loc_Inexact (Z.compare (2 * r) d) in
        binary_round_aux prec emax s (n / d) (- k) loc
  | _ => S754_zero s
  end.

(** The literals [0.3] and [0.7]. *)
Definition lit_0_3 : float := Eval vm_compute in float_of_decimal false 3 (-1).
Definition lit_0_7 : float := Eval vm_compute in float_of_decimal false 7 (-1).

Definition float_mul : float -> float -> float := SFmul prec emax.
Definition float_add : float -> float -> float := SFadd prec emax.

(** [x * f] for a float [f]. *)
Definition mul_float (x : pyobj) (f : float) : result float :=
  match x with
  | PyInt z => bind (float_of_int z) (fun a => Return (float_mul a f))
  | PyBool b => bind (float_of_int (if b then 1 else 0))
                     (fun a => Return (float_mul a f))
  | PyFloat a => Return (float_mul a f)
  | PyStr _ | PyList _ =>
      Raise (TypeError (py "can't multiply sequence by non-int of type 'float'"))
  | _ => Raise (TypeError (py "unsupported operand type(s) for *: '"
                             ++ type_name x ++ py "' and 'float'"))
  end.

(** [int(f)]: truncation toward zero. *)
Definition int_of_float (f : float) : result Z :=
  match f with
  | S754_zero _ => Return 0%Z
  | S754_finite s m e =>
      let v := if (0 <=? e)%Z then Z.shiftl (Zpos m) e
               else Z.shiftr (Zpos m) (- e) in
      Return (if s then (- v)%Z else v)
  | S754_infinity _ =>
      Raise (OverflowError (py "cannot convert float infinity to integer"))
  | S754_nan => Raise (ValueError (py "cannot convert float NaN to integer"))
  end.

(** [math.floor(f)] of a finite float, used to read the specification's
    formula on the float the code computes. *)
Definition floor_of_float (f : float) : option Z :=
  match f with
  | S754_zero _ => Some 0%Z
  | S754_finite s m e =>
      Some (if (0 <=? e)%Z then (if s then - Z.shiftl (Zpos m) e else Z.shiftl (Zpos m) e)%Z
            else if s then (- Z.shiftr (Zpos m + 2 ^ (- e) - 1) (- e))%Z
                 else Z.shiftr (Zpos m) (- e))
  | _ => None
  end.

(** ** Formatting and truth *)

(** [str(z)] for an integer. *)
Definition decimal_Z (z : Z) : str :=
  match z with
  | Zneg p => py "-" ++ decimal (Pos.to_nat p)
  | _ => decimal (Z.to_nat z)
  end.

(** [bool(x)] *)
Definition truth (x : pyobj) : bool :=
  match x with
  | PyNone => false
  | PyBool b => b
  | PyInt z => negb (z =? 0)%Z
  | PyFloat (S754_zero _) => false
  | PyFloat _ => true
  | PyStr [] | PyList [] | PyDict [] => false
  | PyStr _ | PyList _ | PyDict _ => true
  end.

Definition is_ascii (s : str) : bool := forallb (fun c => (c <? 128)%N) s.

Definition ascii_upper (c : char) : char :=
  if ((97 <=? c) && (c <=? 122))%N then (c - 32)%N else c.

End Py.

Module PyNotations.
Notation "x <- m ;; k" := (Py.bind m (fun x => k))
  (at level 61, m at next level, right associativity).
End PyNotations.

(* ===================================================================== *)
(** * The JSON decoder                                                     *)
(* ===================================================================== *)

(** [json.loads] as CPython's decoder runs it (its accelerated scanner,
    default hooks, [strict] mode): the grammar, the Python values it
    builds, and the message and position of each [JSONDecodeError].
    Scanning functions receive the text that remains and the index [idx]
    of its first character in the document. *)
Module Json.
Import Py.

Inductive scan (A : Type) :=
| Ok (a : A) (rest : str) (idx : nat)
| Err (msg : str) (pos : nat)
| OutOfFuel.
Arguments Err {A} msg pos.
Arguments OutOfFuel {A}.

Definition is_ws (c : char) : bool :=
  ((c =? 32) || (c =? 9) || (c =? 10) || (c =? 13))%N.

Definition is_digit (c : char) : bool := ((48 <=? c) && (c <=? 57))%N.

Fixpoint skip_ws (s : str) (idx : nat) : str * nat :=
  match s with
  | c :: r => if is_ws c then skip_ws r (S idx) else (s, idx)
  | [] => ([], idx)
  end.

(** A scan that ends well leaves less text than it was given, and does
    not run out of fuel. *)
Definition consumes {A} (r : scan A) (s : str) : Prop :=
  match r with
  | Ok _ rest _ => (length rest < length s)%nat
  | Err _ _ => True
  | OutOfFuel => False
  end.

(** ** Strings *)

Definition hex_digit (c : char) : option N :=
  if ((48 <=? c) && (c <=? 57))%N then Some (c - 48)%N
  else if ((97 <=? c) && (c <=? 102))%N then Some (c - 87)%N
  else if ((65 <=? c) && (c <=? 70))%N then Some (c - 55)%N
  else None.

Definition hex4 (a b c d : char) : option N :=
  match hex_digit a, hex_digit b, hex_digit c, hex_digit d with
  | Some x, Some y, Some z, Some w => Some (((x * 16 + y) * 16 + z) * 16 + w)%N
  | _, _, _, _ => None
  end.

(** The character a backslash escape other than [\u] stands for. *)
Definition escape (c : char) : option char :=
  if (c =? 34)%N then Some 34%N                (* quote *)
  else if (c =? 92)%N then Some 92%N           (* backslash *)
  else if (c =? 47)%N then Some 47%N           (* slash *)
  else if (c =? 98)%N then Some 8%N            (* b *)
  else if (c =? 102)%N then Some 12%N          (* f *)
  else if (c =? 110)%N then Some 10%N          (* n *)
  else if (c =? 114)%N then Some 13%N          (* r *)
  else if (c =? 116)%N then Some 9%N           (* t *)
  else None.

Definition is_high_surrogate (c : N) : bool := ((55296 <=? c) && (c <=? 56319))%N.
Definition is_low_surrogate (c : N) : bool := ((56320 <=? c) && (c <=? 57343))%N.
Definition join_surrogates (hi lo : N) : N :=
  (65536 + (((hi - 55296) * 1024) + (lo - 56320)))%N.

(** [scanstring]: [s] starts at index [idx], inside a string whose opening
    quote is at index [begin]; [acc] holds the characters read so far, last
    one first. *)
Fixpoint scanstring (s : str) (idx begin : nat) (acc : str) {struct s}
    : scan str :=
  match s with
  | [] => Err (py "Unterminated string starting at") begin
  | c :: r =>
      if (c =? 34)%N then Ok (rev acc) r (S idx)
      else if (c =? 92)%N then
        match r with
        | [] => Err (py "Unterminated string starting at") begin
        | e :: r1 =>
            if (e =? 117)%N then
              (* \uXXXX, and one more character after it *)
              match r1 with
              | h1 :: h2 :: h3 :: h4 :: (_ :: _) as r2 =>
                  match hex4 h1 h2 h3 h4 with
                  | None => Err (py "Invalid \uXXXX escape") (idx + 1)
                  | Some u =>
                      match r2 with
                      | b :: e2 :: l1 :: l2 :: l3 :: l4 :: (_ :: _) as r3 =>
                          if is_high_surrogate u && (b =? 92)%N && (e2 =? 117)%N
                          then
                            match hex4 l1 l2 l3 l4 with
                            | None => Err (py "Invalid \uXXXX escape") (idx + 7)
                            | Some u2 =>
                                if is_low_surrogate u2
                                then scanstring r3 (idx + 12) begin
                                       (join_surrogates u u2 :: acc)
                                else scanstring r2 (idx + 6) begin (u :: acc)
                            end
                          else scanstring r2 (idx + 6) begin (u :: acc)
                      | _ => scanstring r2 (idx + 6) begin (u :: acc)
                      end
                  end
              | _ => Err (py "Invalid \uXXXX escape") (idx + 1)
              end
            else
              match escape e with
              | Some ch => scanstring r1 (idx + 2) begin (ch :: acc)
              | None => Err (py "Invalid \escape") idx
              end
        end
      else if (c <=? 31)%N then Err (py "Invalid control character at") idx
      else scanstring r (S idx) begin (c :: acc)
  end.

(** ** Numbers *)

Fixpoint span_digits (s : str) : str * str :=
  match s with
  | c :: r => if is_digit c
              then let (ds, rest) := span_digits r in (c :: ds, rest)
              else ([], s)
  | [] => ([], [])
  end.

Definition int_of_digits (ds : str) : Z :=
  fold_left (fun acc c => (acc * 10 + Z.of_N (c - 48))%Z) ds 0%Z.

(** The digits of the integer part: [0] alone, or a digit sequence that
    does not start with [0]. *)
Definition match_digits (s : str) : option (str * str) :=
  match s with
  | c :: r =>
      if (c =? 48)%N then Some ([c], r)
      else if is_digit c then Some (span_digits s)
      else None
  | [] => None
  end.

(** The integer part: an optional minus sign, then the digits. *)
Definition match_integer (s : str) : option (bool * str * str) :=
  let (neg, s1) := match s with
                   | c :: r => if (c =? 45)%N then (true, r) else (false, s)
                   | [] => (false, s)
                   end in
  match match_digits s1 with
  | Some (ds, r) => Some (neg, ds, r)
  | None => None
  end.

(** The fraction: a dot and at least one digit. *)
Definition match_frac (s : str) : option (str * str) :=
  match s with
  | c :: ((d :: _) as r) =>
      if (c =? 46)%N && is_digit d then Some (span_digits r) else None
  | _ => None
  end.

(** The optional sign of an exponent. *)
Definition exp_sign (s : str) : bool * str :=
  match s with
  | c :: r => if (c =? 45)%N then (true, r)
              else if (c =? 43)%N then (false, r)
              else (false, s)
  | [] => (false, s)
  end.

(** The exponent: [e] or [E], an optional sign and at least one digit. *)
Definition match_exp (s : str) : option (Z * str) :=
  match s with
  | c :: r =>
      if (c =? 101)%N || (c =? 69)%N then
        let (neg, r1) := exp_sign r in
        match span_digits r1 with
        | ([], _) => None
        | (ds, rest) => Some (if neg then (- int_of_digits ds)%Z else int_of_digits ds, rest)
        end
      else None
  | [] => None
  end.

(** A number at the head of [s]: [int] when it has neither fraction nor
    exponent, [float] otherwise. *)
Definition match_number (s : str) (idx : nat) : option (pyobj * str * nat) :=
  match match_integer s with
  | None => None
  | Some (neg, ds, r) =>
      let (frac, r1) := match match_frac r with
                        | Some (fs, r') => (Some fs, r')
                        | None => (None, r)
                        end in
      let (exp, r2) := match match_exp r1 with
                       | Some (e, r') => (Some e, r')
                       | None => (None, r1)
                       end in
      let idx' := (idx + (length s - length r2))%nat in
      match frac, exp with
      | None, None =>
          Some (PyInt (if neg then - int_of_digits ds else int_of_digits ds)%Z, r2, idx')
      | _, _ =>
          let fs := match frac with Some fs => fs | None => [] end in
          let e := match exp with Some e => e | None => 0%Z end in
          Some (PyFloat (float_of_decimal neg (int_of_digits (ds ++ fs))
                                          (e - Z.of_nat (length fs))),
                r2, idx')
      end
  end.

(** ** Values *)

Fixpoint scan_once (fuel : nat) (s : str) (idx : nat) {struct fuel} : scan pyobj :=
  match fuel with
  | O => OutOfFuel
  | S fuel' =>
  match s with
  | [] => Err (py "Expecting value") idx
  | c :: r =>
      if (c =? 34)%N then
        match scanstring r (S idx) idx [] with
        | Ok v rest i => Ok (PyStr v) rest i
        | Err msg pos => Err msg pos
        | OutOfFuel => OutOfFuel
        end
      else if (c =? 123)%N then
        let (s1, i1) := skip_ws r (S idx) in
        match s1 with
        | c1 :: r1 => if (c1 =? 125)%N then Ok (PyDict []) r1 (S i1)
                      else object_members fuel' s1 i1 []
        | [] => object_members fuel' s1 i1 []
        end
      else if (c =? 91)%N then
        let (s1, i1) := skip_ws r (S idx) in
        match s1 with
        | c1 :: r1 => if (c1 =? 93)%N then Ok (PyList []) r1 (S i1)
                      else array_items fuel' s1 i1 []
        | [] => array_items fuel' s1 i1 []
        end
      else if startswith s (py "null") then Ok PyNone (skipn 4 s) (idx + 4)
      else if startswith s (py "true") then Ok (PyBool true) (skipn 4 s) (idx + 4)
      else if startswith s (py "false") then Ok (PyBool false) (skipn 5 s) (idx + 5)
      else if startswith s (py "NaN") then Ok (PyFloat S754_nan) (skipn 3 s) (idx + 3)
      else if startswith s (py "Infinity")
           then Ok (PyFloat (S754_infinity false)) (skipn 8 s) (idx + 8)
      else if startswith s (py "-Infinity")
           then Ok (PyFloat (S754_infinity true)) (skipn 9 s) (idx + 9)
      else match match_number s idx with
           | Some (v, rest, i) => Ok v rest i
           | None => Err (py "Expecting value") idx
           end
  end
  end

(** The members of an object, from the point where a key is expected;
    [d] is the dictionary built so far. *)
with object_members (fuel : nat) (s : str) (idx : nat) (d : list (str * pyobj))
    {struct fuel} : scan pyobj :=
  match fuel with
  | O => OutOfFuel
  | S fuel' =>
  match s with
  | c :: r =>
      if (c =? 34)%N then
        match scanstring r (S idx) idx [] with
        | Err msg pos => Err msg pos
        | OutOfFuel => OutOfFuel
        | Ok key s2 i2 =>
            let (s3, i3) := skip_ws s2 i2 in
            match s3 with
            | c3 :: r3 =>
                if (c3 =? 58)%N then
                  let (s4, i4) := skip_ws r3 (S i3) in
                  match scan_once fuel' s4 i4 with
                  | Err msg pos => Err msg pos
                  | OutOfFuel => OutOfFuel
                  | Ok val s5 i5 =>
                      let d' := dict_set d key val in
                      let (s6, i6) := skip_ws s5 i5 in
                      match s6 with
                      | c6 :: r6 =>
                          if (c6 =? 125)%N then Ok (PyDict d') r6 (S i6)
                          else if (c6 =? 44)%N then
                            let (s7, i7) := skip_ws r6 (S i6) in
                            object_members fuel' s7 i7 d'
                          else Err (py "Expecting ',' delimiter") i6
                      | [] => Err (py "Expecting ',' delimiter") i6
                      end
                  end
                else Err (py "Expecting ':' delimiter") i3
            | [] => Err (py "Expecting ':' delimiter") i3
            end
        end
      else Err (py "Expecting property name enclosed in double quotes") idx
  | [] => Err (py "Expecting property name enclosed in double quotes") idx
  end
  end

(** The items of an array, from the point where a value is expected;
    [values] holds the items read so far, last one first. *)
with array_items (fuel : nat) (s : str) (idx : nat) (values : list pyobj)
    {struct fuel} : scan pyobj :=
  match fuel with
  | O => OutOfFuel
  | S fuel' =>
  match scan_once fuel' s idx with
  | Err msg pos => Err msg pos
  | OutOfFuel => OutOfFuel
  | Ok val s1 i1 =>
      let (s2, i2) := skip_ws s1 i1 in
      match s2 with
      | c2 :: r2 =>
          if (c2 =? 93)%N then Ok (PyList (rev (val :: values))) r2 (S i2)
          else if (c2 =? 44)%N then
            let (s3, i3) := skip_ws r2 (S i2) in
            array_items fuel' s3 i3 (val :: values)
          else Err (py "Expecting ',' delimiter") i2
      | [] => Err (py "Expecting ',' delimiter") i2
      end
  end
  end.

(** ** Documents *)

(** The line and column [JSONDecodeError] reports for position [pos]:
    [doc.count('\n', 0, pos) + 1] and the distance to the last newline
    before [pos]. *)
Fixpoint line_col (doc : str) (pos : nat) (lineno colno : nat) : nat * nat :=
  match pos, doc with
  | S pos', c :: doc' =>
      if N.eqb c newline then line_col doc' pos' (S lineno) 1
      else line_col doc' pos' lineno (S colno)
  | _, _ => (lineno, colno)
  end.

Definition decode_error (doc msg : str) (pos : nat) : exn :=
  let (lineno, colno) := line_col doc pos 1 1 in
  JSONDecodeError msg pos lineno colno.

(** [json.loads(doc)]. The scanner is given two units of fuel for each
    character and two more, which is enough for every document. *)
Definition loads (doc : str) : result pyobj :=
  if startswith doc [65279%N]
  then Raise (decode_error doc (py "Unexpected UTF-8 BOM (decode using utf-8-sig)") 0)
  else
    let (s0, i0) := skip_ws doc 0 in
    match scan_once (2 * S (length doc)) s0 i0 with
    | Err msg pos => Raise (decode_error doc msg pos)
    | OutOfFuel => Raise (OtherException (py "RecursionError")
                                         (py "maximum recursion depth exceeded"))
    | Ok obj rest end_ =>
        match skip_ws rest end_ with
        | ([], _) => Return obj
        | (_ :: _, end') => Raise (decode_error doc (py "Extra data") end')
        end
    end.

End Json.

(* ===================================================================== *)
(** * The checker                                                          *)
(* ===================================================================== *)

Module Checker.
Import Py PyNotations.

(** ** Data model *)

(** Results from structure validation. *)
Record ValidationResult := {
  is_valid : bool;
  errors : list str;
  warnings : list str
}.

(** Individual quality issue found during assessment. The fields of a
    parsed issue hold whatever the reply holds, so they are dynamically
    typed; [field] defaults to [None]. *)
Record QualityIssue := {
  severity : pyobj;
  description : pyobj;
  field : pyobj
}.

(** [QualityIssue(severity, description)] with string arguments. *)
Definition issue (sev desc : str) : QualityIssue :=
  {| severity := PyStr sev; description := PyStr desc; field := PyNone |}.

(** Results from AI quality assessment. *)
Record QualityAssessment := {
  score : pyobj;
  issues : list QualityIssue;
  explanation : pyobj;
  recommendations : pyobj
}.

(** Complete quality report combining validation and assessment. *)
Record QualityReport := {
  validation : ValidationResult;
  quality : QualityAssessment;
  overall_score : Z
}.

(** ** The backend client *)

Record Anthropic := { client_api_key : str }.

(** The keyword arguments of [client.messages.create]. *)
Record Request := {
  req_model : str;
  req_max_tokens : Z;
  req_messages : list (str * str)        (* role, content *)
}.

Inductive ContentBlock :=
| TextBlock (text : str)
| OtherBlock (cls : str).                (* a block without a [text] *)

Record Message := { content : list ContentBlock }.

(** [message.content[0].text] *)
Definition content_0_text (message : Message) : result str :=
  match content message with
  | [] => Raise (IndexError (py "list index out of range"))
  | TextBlock text :: _ => Return text
  | OtherBlock cls :: _ =>
      Raise (AttributeError (py "'" ++ cls ++ py "' object has no attribute 'text'"))
  end.

(** ** ResponseQualityChecker *)

Record ResponseQualityChecker := {
  api_key : str;
  client : Anthropic;
  model : str
}.

(** [a or b] for optional strings: [a] when it is true, [b] otherwise. *)
Definition or_ (a b : option str) : option str := if truthy a then a else b.

(** Initialize the checker with Claude API client, in an environment
    [environ]: [__init__(self, api_key=None)]. A key that is [None] or
    empty is false, which is when [ValueError] is raised. *)
Definition __init__ (environ : str -> option str) (api_key : option str)
    : result ResponseQualityChecker :=
  let self_api_key := or_ api_key (environ (py "ANTHROPIC_API_KEY")) in
  match self_api_key with
  | Some ((_ :: _) as key) =>
      Return {| api_key := key;
                client := {| client_api_key := key |};
                model := py "claude-sonnet-4-20250514" |}
  | _ => Raise (ValueError
           (py "ANTHROPIC_API_KEY must be set in environment or passed to constructor"))
  end.

(** Calculate overall score from validation and quality assessment:
    30% structure, 70% quality. *)
Definition _calculate_overall_score (validation : ValidationResult)
    (quality : QualityAssessment) : result Z :=
  let structure_score := PyInt (if is_valid validation then 100 else 0) in
  a <- mul_float structure_score lit_0_3 ;;
  b <- mul_float (score quality) lit_0_7 ;;
  int_of_float (float_add a b).

(** The assessment [_parse_assessment] falls back to. *)
Definition parse_fallback (e : exn) : QualityAssessment :=
  {| score := PyInt 50;
     issues := [issue (py "warning") (py "Could not parse assessment: " ++ exn_str e)];
     explanation := PyStr (py "Assessment completed but response format was unexpected");
     recommendations := PyList [PyStr (py "Review raw assessment output")] |}.

(** One element of the list comprehension over the reply's issues. *)
Definition parse_issue (item : pyobj) : result QualityIssue :=
  sev <- getitem item (py "severity") ;;
  desc <- getitem item (py "description") ;;
  fld <- get item (py "field") PyNone ;;
  Return {| severity := sev; description := desc; field := fld |}.

Fixpoint parse_issues (items : list pyobj) : result (list QualityIssue) :=
  match items with
  | [] => Return []
  | item :: rest =>
      i <- parse_issue item ;;
      others <- parse_issues rest ;;
      Return (i :: others)
  end.

(** The clean-up of the reply: the text handed to [json.loads]. *)
Definition clean_assessment_text (assessment_text : str) : str :=
  let assessment_text := strip assessment_text in
  if startswith assessment_text (py "```") then
    let lines := split newline assessment_text in
    join [newline] (slice lines 1 (-1))
  else assessment_text.

Definition is_JSONDecodeError_or_KeyError (e : exn) : bool :=
  match e with
  | JSONDecodeError _ _ _ _ | KeyError _ => true
  | _ => false
  end.

(** The assessment made from the decoded reply: the statements of
    [_parse_assessment] that follow [json.loads]. *)
Definition build_assessment (data : pyobj) : result QualityAssessment :=
  raw <- get data (py "issues") (PyList []) ;;
  items <- iterate raw ;;
  issues <- parse_issues items ;;
  score <- getitem data (py "score") ;;
  explanation <- getitem data (py "explanation") ;;
  recommendations <- get data (py "recommendations") (PyList []) ;;
  Return {| score := score; issues := issues;
            explanation := explanation;
            recommendations := recommendations |}.

(** Parse Claude's JSON response into a QualityAssessment object. *)
Definition _parse_assessment (assessment_text : str) : result QualityAssessment :=
  try_except
    (let assessment_text := clean_assessment_text assessment_text in
     data <- Json.loads assessment_text ;;
     build_assessment data)
    is_JSONDecodeError_or_KeyError
    (fun e => Return (parse_fallback e)).

(** Check consistency across multiple responses from the same endpoint. *)
Definition check_consistency (responses : list pyobj) (schema : pyobj)
    : result QualityAssessment :=
  Raise (NotImplementedError (py "Batch consistency checking coming soon")).

(** The assessment [assess_quality] falls back to. *)
Definition assess_fallback (e : exn) : QualityAssessment :=
  {| score := PyInt 0;
     issues := [issue (py "critical") (py "Assessment failed: " ++ exn_str e)];
     explanation := PyStr (py "Unable to complete quality assessment");
     recommendations := PyList [PyStr (py "Verify API connectivity and try again")] |}.

(** The assessment [check_response] synthesizes for an invalid
    structure. *)
Definition invalid_structure_assessment : QualityAssessment :=
  {| score := PyInt 0;
     issues := [issue (py "critical") (py "Structure validation failed")];
     explanation := PyStr (py "Response does not meet basic structure requirements");
     recommendations :=
       PyList [PyStr (py "Fix schema validation errors before quality assessment")] |}.

(** A computation that may call the backend: it receives the requests
    sent so far and returns them with the ones it sent added. *)
Definition io (A : Type) := list Request -> result A * list Request.

Definition io_ret {A} (r : result A) : io A := fun calls => (r, calls).

Definition io_bind {A B} (m : io A) (k : A -> io B) : io B :=
  fun calls =>
    match m calls with
    | (Return a, calls') => k a calls'
    | (Raise e, calls') => (Raise e, calls')
    end.

Definition io_try_except {A} (body : io A) (handles : exn -> bool)
    (handler : exn -> io A) : io A :=
  fun calls =>
    match body calls with
    | (Return a, calls') => (Return a, calls')
    | (Raise e, calls') =>
        if handles e then handler e calls' else (Raise e, calls')
    end.

Notation "x <<- m ;; k" := (io_bind m (fun x => k))
  (at level 61, m at next level, right associativity).

Definition is_ValidationError (e : exn) : bool :=
  match e with
  | ValidationError _ _ => true
  | _ => false
  end.

(** [e.message] *)
Definition exn_message (e : exn) : str :=
  match e with
  | ValidationError message _ | SchemaError message _ => message
  | _ => exn_str e
  end.

Section Collaborators.

(** [jsonschema.validate(instance, schema)]: returns, or raises
    [ValidationError] (or [SchemaError] for a malformed schema). *)
Variable validate : pyobj -> pyobj -> result unit.

(** [json.dumps(obj, indent=2)] *)
Variable json_dumps : pyobj -> str.

(** [client.messages.create(...)]: what the backend answers to a
    request, given the requests it has received before. *)
Variable messages_create : Anthropic -> list Request -> Request -> result Message.

(** Validate response structure against JSON schema. *)
Definition validate_structure (response schema : pyobj)
    : result ValidationResult :=
  let errors := [] in
  let warnings := [] in
  try_except
    (_ <- validate response schema ;;
     Return {| is_valid := true; errors := errors; warnings := warnings |})
    is_ValidationError
    (fun e =>
       let errors := errors ++ [py "Schema validation failed: " ++ exn_message e] in
       Return {| is_valid := false; errors := errors; warnings := warnings |}).

(** Build prompt for Claude API quality assessment. *)
Definition _build_assessment_prompt (response schema : pyobj) : str :=
  join [newline]
    [ py "You are an expert API testing engineer. Analyze this API response for quality issues.";
      [];
      py "API Response:";
      json_dumps response;
      [];
      py "Expected Schema:";
      json_dumps schema;
      [];
      py "Please evaluate the response across these dimensions:";
      [];
      py "1. **Completeness**: Are all expected fields present and properly populated?";
      py "2. **Data Quality**: Are values appropriate and meaningful for their field types?";
      py "3. **Consistency**: Is the response internally consistent (e.g., related fields align)?";
      py "4. **Usability**: Would this response be immediately usable by a client application?";
      [];
      py "Provide your assessment in the following JSON format:";
      py "{";
      py "    " ++ q "score" ++ py ": <number 0-100>,";
      py "    " ++ q "issues" ++ py ": [";
      py "        {" ++ q "severity" ++ py ": " ++ q "critical|warning|info" ++ py ", "
         ++ q "description" ++ py ": " ++ q "issue description" ++ py ", "
         ++ q "field" ++ py ": " ++ q "field_name or null" ++ py "}";
      py "    ],";
      py "    " ++ q "explanation" ++ py ": " ++ q "Brief explanation of the overall score" ++ py ",";
      py "    " ++ q "recommendations" ++ py ": [" ++ q "recommendation 1" ++ py ", "
         ++ q "recommendation 2" ++ py "]";
      py "}";
      [];
      py "Be specific about issues found and practical in your recommendations.";
      py "Respond ONLY with the JSON object, no additional text." ].

(** The single call [assess_quality] makes to the backend; the request
    joins the record of requests whether the call returns or raises. *)
Definition create_message (self : ResponseQualityChecker) (request : Request)
    : io Message :=
  fun calls =>
    (messages_create (client self) calls request, calls ++ [request]).

(** Use Claude API to assess response quality. *)
Definition assess_quality (self : ResponseQualityChecker)
    (response schema : pyobj) : io QualityAssessment :=
  let prompt := _build_assessment_prompt response schema in
  io_try_except
    (message <<- create_message self
                   {| req_model := model self;
                      req_max_tokens := 1024;
                      req_messages := [(py "user", prompt)] |} ;;
     io_ret (assessment_text <- content_0_text message ;;
             _parse_assessment assessment_text))
    is_Exception
    (fun e => io_ret (Return (assess_fallback e))).

(** Perform complete quality check: validation + assessment. *)
Definition check_response (self : ResponseQualityChecker)
    (response schema : pyobj) : io QualityReport :=
  validation <<- io_ret (validate_structure response schema) ;;
  quality <<- (if is_valid validation
               then assess_quality self response schema
               else io_ret (Return invalid_structure_assessment)) ;;
  overall_score <<- io_ret (_calculate_overall_score validation quality) ;;
  io_ret (Return {| validation := validation;
                    quality := quality;
                    overall_score := overall_score |}).

End Collaborators.

(** ** The report as text *)

Section Formatting.

(** [repr] of a float, [str] of a list or a dict, and [str.upper] on text
    outside ASCII belong to the interpreter and its Unicode tables. *)
Variable float_repr : float -> str.
Variable container_str : pyobj -> str.
Variable unicode_upper : str -> str.

(** [s.upper()]: on ASCII text, each lower-case letter becomes its capital. *)
Definition upper (s : str) : str :=
  if is_ascii s then map ascii_upper s else unicode_upper s.

(** [x.upper()] for a value of any type. *)
Definition upper_method (x : pyobj) : result str :=
  match x with
  | PyStr s => Return (upper s)
  | _ => Raise (AttributeError
                  (py "'" ++ type_name x ++ py "' object has no attribute 'upper'"))
  end.

(** The text [f"{x}"] puts for [x]. *)
Definition format_obj (x : pyobj) : str :=
  match x with
  | PyNone => py "None"
  | PyBool true => py "True"
  | PyBool false => py "False"
  | PyInt z => decimal_Z z
  | PyFloat f => float_repr f
  | PyStr s => s
  | PyList _ | PyDict _ => container_str x
  end.

Definition rule : str := repeat 61%N 50.          (* "="*50 *)
Definition bullet : str := py "  " ++ [8226%N] ++ py " ".

(** The line of one issue. *)
Definition issue_line (issue : QualityIssue) : result str :=
  let field_info := if truth (field issue)
                    then py " [" ++ format_obj (field issue) ++ py "]"
                    else [] in
  sev <- upper_method (severity issue) ;;
  Return (py "  [" ++ sev ++ py "]" ++ field_info ++ py " "
            ++ format_obj (description issue)).

Fixpoint issue_lines (issues : list QualityIssue) : result (list str) :=
  match issues with
  | [] => Return []
  | issue :: rest =>
      l <- issue_line issue ;;
      ls <- issue_lines rest ;;
      Return (l :: ls)
  end.

(** The lines of [enumerate(recs, i)]. *)
Fixpoint numbered (i : nat) (recs : list pyobj) : list str :=
  match recs with
  | [] => []
  | rec :: rest =>
      (py "  " ++ decimal i ++ py ". " ++ format_obj rec) :: numbered (S i) rest
  end.

(** Generate human-readable summary. *)
Definition summary (self : QualityReport) : result str :=
  let lines :=
    [ [newline] ++ rule;
      py "API Response Quality Report";
      rule;
      [newline] ++ py "Overall Score: " ++ decimal_Z (overall_score self)
        ++ py "/100" ++ [newline] ] in
  (* Structure validation *)
  let lines := lines ++
    [ py "Structure Validation: "
        ++ (if is_valid (validation self) then [10003%N] ++ py " PASSED"
            else [10007%N] ++ py " FAILED") ] in
  let lines :=
    match errors (validation self) with
    | [] => lines
    | errs => lines ++ [[newline] ++ py "Validation Errors:"]
                    ++ map (fun error => bullet ++ error) errs
    end in
  let lines :=
    match warnings (validation self) with
    | [] => lines
    | warns => lines ++ [[newline] ++ py "Warnings:"]
                     ++ map (fun warning => bullet ++ warning) warns
    end in
  (* Quality assessment *)
  let lines := lines ++
    [ [newline] ++ py "Quality Assessment Score: "
        ++ format_obj (score (quality self)) ++ py "/100";
      [newline] ++ format_obj (explanation (quality self)) ] in
  lines <- match issues (quality self) with
           | [] => Return lines
           | found =>
               ls <- issue_lines found ;;
               Return (lines
                         ++ [[newline] ++ py "Issues Found ("
                               ++ decimal (length found) ++ py "):"]
                         ++ ls)
           end ;;
  lines <- (if truth (recommendations (quality self))
            then
              recs <- iterate (recommendations (quality self)) ;;
              Return (lines ++ [[newline] ++ py "Recommendations:"]
                            ++ numbered 1 recs)
            else Return lines) ;;
  let lines := lines ++ [[newline] ++ rule ++ [newline]] in
  Return (join [newline] lines).

End Formatting.

End Checker.


(* ===================================================================== *)
(** * The specification's formulas and the inputs it names                *)
(* ===================================================================== *)

Module Spec.
Import Py Checker.

(** The specification's formula, read over the rationals:
    [floor(0.3 * (100 if is_valid else 0) + 0.7 * score)]. *)
Definition spec_overall_score (is_valid : bool) (score : Z) : Z :=
  Qfloor (0.3 * inject_Z (if is_valid then 100 else 0) + 0.7 * inject_Z score)%Q.

(** The float the code truncates, [(structure_score * 0.3) +
    (score * 0.7)], for an integer score. *)
Definition weighted_sum (is_valid : bool) (score : Z) : result float :=
  bind (mul_float (PyInt (if is_valid then 100 else 0)) lit_0_3) (fun a =>
  bind (mul_float (PyInt score) lit_0_7) (fun b =>
  Return (float_add a b))).

(** A score within the documented range [0, 100]. *)
Definition score_in_range (s : pyobj) : Prop :=
  exists z, s = PyInt z /\ (0 <= z <= 100)%Z.

Definition validation_of (b : bool) : ValidationResult :=
  {| is_valid := b; errors := []; warnings := [] |}.

Definition assessment_of (s : pyobj) : QualityAssessment :=
  {| score := s; issues := []; explanation := PyStr []; recommendations := PyList [] |}.

Definition scores_0_100 : list Z := map Z.of_nat (seq 0 101).

(** The code agrees with the formula at this pair. *)
Definition agrees (b : bool) (z : Z) : bool :=
  match _calculate_overall_score (validation_of b) (assessment_of (PyInt z)) with
  | Return o => (o =? spec_overall_score b z)%Z
  | Raise _ => false
  end.

(** The JSON object of the fence-stripping scenario. *)
Definition ok_object : str :=
  py "{" ++ q "score" ++ py ": 90, " ++ q "explanation" ++ py ": " ++ q "ok" ++ py "}".

Definition ok_assessment : QualityAssessment :=
  {| score := PyInt 90; issues := [];
     explanation := PyStr (py "ok"); recommendations := PyList [] |}.

(** A fenced reply: the opening fence with its language tag, the object,
    the closing fence. *)
Definition fenced (tag : str) : str :=
  py "```" ++ tag ++ [newline] ++ ok_object ++ [newline] ++ py "```".

(** The object after an opening fence that is never closed. *)
Definition unclosed_fence : str := py "```json" ++ [newline] ++ ok_object.

(** A well-formed reply whose score is outside the range. *)
Definition score_150 : str :=
  py "{" ++ q "score" ++ py ": 150, " ++ q "explanation" ++ py ": " ++ q "x" ++ py "}".

(** Collaborators with a fixed behaviour. *)
Definition accepts : pyobj -> pyobj -> result unit := fun _ _ => Return tt.

Definition rejects (message : str) : pyobj -> pyobj -> result unit :=
  fun _ _ => Raise (ValidationError message message).

Definition dumps_nothing : pyobj -> str := fun _ => [].

Definition replies (text : str) : Anthropic -> list Request -> Request -> result Message :=
  fun _ _ _ => Return {| content := [TextBlock text] |}.

Definition fails (e : exn) : Anthropic -> list Request -> Request -> result Message :=
  fun _ _ _ => Raise e.

Definition a_checker : ResponseQualityChecker :=
  {| api_key := py "key"; client := {| client_api_key := py "key" |};
     model := py "claude-sonnet-4-20250514" |}.

(** The request [assess_quality] sends. *)
Definition request_of (json_dumps : pyobj -> str) (self : ResponseQualityChecker)
    (response schema : pyobj) : Request :=
  {| req_model := model self;
     req_max_tokens := 1024;
     req_messages := [(py "user", _build_assessment_prompt json_dumps response schema)] |}.

(** The interpreter's own formatting, left blank. *)
Definition no_float_repr : float -> str := fun _ => [].
Definition no_container_str : pyobj -> str := fun _ => [].
Definition no_unicode_upper : str -> str := fun s => s.

(** Replies and reports used to run the properties. *)
Definition score_high : str :=
  py "{" ++ q "score" ++ py ": " ++ q "high" ++ py ", " ++ q "explanation" ++ py ": "
     ++ q "x" ++ py "}".

Definition two_issues : list pyobj :=
  [ PyDict [(py "severity", PyStr (py "warning")); (py "description", PyStr (py "slow"));
            (py "field", PyStr (py "name"))];
    PyDict [(py "severity", PyStr (py "info")); (py "description", PyStr (py "fine"))] ].

Definition issue_without_severity : str :=
  py "{" ++ q "score" ++ py ": 90, " ++ q "explanation" ++ py ": " ++ q "ok" ++ py ", "
     ++ q "issues" ++ py ": [{" ++ q "description" ++ py ": " ++ q "slow" ++ py "}]}".

Definition clean_report : QualityReport :=
  {| validation := {| is_valid := true; errors := []; warnings := [] |};
     quality := {| score := PyInt 90; issues := []; explanation := PyStr (py "ok");
                   recommendations := PyList [] |};
     overall_score := 93 |}.

Definition busy_report : QualityReport :=
  {| validation := {| is_valid := false; errors := [py "e1"]; warnings := [py "w1"; py "w2"] |};
     quality := {| score := PyInt 72;
                   issues := [ {| severity := PyStr (py "warning");
                                  description := PyStr (py "empty name");
                                  field := PyStr (py "name") |};
                               issue (py "info") (py "fine") ];
                   explanation := PyStr (py "mostly fine");
                   recommendations := PyList [PyStr (py "fill the name")] |};
     overall_score := 50 |}.

Definition report_with_issue (i : QualityIssue) (recs : pyobj) : QualityReport :=
  {| validation := {| is_valid := true; errors := []; warnings := [] |};
     quality := {| score := PyInt 90; issues := [issue (py "info") (py "fine"); i];
                   explanation := PyStr (py "ok"); recommendations := recs |};
     overall_score := 93 |}.

End Spec.

(* ===================================================================== *)
(** * Facts about the runtime                                              *)
(* ===================================================================== *)

Section TextFacts.
Import Py.

Lemma lstrip_spaces (lead s : str) :
  Forall (fun c => isspace c = true) lead -> lstrip (lead ++ s) = lstrip s.
Proof.
  induction 1 as [|c lead Hc _ IH]; simpl; [reflexivity|].
  now rewrite Hc.
Qed.

Lemma lstrip_nonspace (c : char) (s : str) :
  isspace c = false -> lstrip (c :: s) = c :: s.
Proof. intros Hc; simpl; now rewrite Hc. Qed.

(** Trailing whitespace goes, and nothing before the last character that
    is not whitespace. *)
Lemma rstrip_app_nonspace (x : str) (c : char) (trail : str) :
  isspace c = false -> Forall (fun c => isspace c = true) trail ->
  rstrip (x ++ c :: trail) = x ++ [c].
Proof.
  intros Hc Htrail. unfold rstrip.
  rewrite rev_app_distr. simpl rev. rewrite <- app_assoc. simpl app.
  rewrite lstrip_spaces by now apply Forall_rev.
  rewrite lstrip_nonspace by assumption.
  simpl. now rewrite rev_involutive.
Qed.

Lemma rstrip_cons_nonspace (c : char) (s : str) :
  isspace c = false -> rstrip (c :: s) = c :: rstrip s.
Proof.
  intros Hc. unfold rstrip. simpl rev.
  assert (H : forall x, lstrip (x ++ [c]) = lstrip x ++ [c]).
  { induction x as [|a x IH]; simpl.
    - now rewrite Hc.
    - destruct (isspace a); [exact IH | reflexivity]. }
  rewrite H, rev_app_distr. reflexivity.
Qed.

(** Text between whitespace, with no whitespace at its own ends, is what
    [strip] returns. *)
Lemma strip_padded (lead trail x : str) (a b : char) :
  Forall (fun c => isspace c = true) lead ->
  Forall (fun c => isspace c = true) trail ->
  isspace a = false -> isspace b = false ->
  strip (lead ++ (a :: x ++ [b]) ++ trail) = a :: x ++ [b].
Proof.
  intros Hlead Htrail Ha Hb. unfold strip.
  rewrite lstrip_spaces by assumption.
  simpl app. rewrite lstrip_nonspace by assumption.
  rewrite <- app_assoc. simpl app.
  change (a :: x ++ b :: trail) with ((a :: x) ++ b :: trail).
  now rewrite rstrip_app_nonspace.
Qed.

Lemma startswith_app (p s : str) : startswith (p ++ s) p = true.
Proof.
  induction p as [|c p IH]; simpl; [now destruct s|].
  now rewrite N.eqb_refl.
Qed.

(** A text that starts with a fence still does after [strip]. *)
Lemma startswith_fence_strip (text : str) :
  startswith text (py "```") = true ->
  startswith (strip text) (py "```") = true.
Proof.
  destruct text as [|a [|b [|c rest]]]; simpl; intros H;
    repeat match goal with
           | E : _ && _ = true |- _ => apply andb_prop in E as [? ?]
           end; try discriminate.
  repeat match goal with
         | E : N.eqb _ _ = true |- _ => apply N.eqb_eq in E; subst
         end.
  unfold strip. rewrite lstrip_nonspace by reflexivity.
  rewrite !rstrip_cons_nonspace by reflexivity.
  exact (startswith_app (py "```") (rstrip rest)).
Qed.

Lemma split_nonempty (sep : char) (s : str) : split sep s <> [].
Proof.
  destruct s as [|c r]; simpl; [discriminate|].
  destruct (N.eqb c sep); [discriminate|].
  destruct (split sep r); discriminate.
Qed.

(** The first line ends at the first separator. *)
Lemma split_app (sep : char) (line rest : str) :
  ~ In sep line ->
  split sep (line ++ sep :: rest) = line :: split sep rest.
Proof.
  induction line as [|c line IH]; intros Hnot; simpl.
  - now rewrite N.eqb_refl.
  - destruct (N.eqb_spec c sep) as [->|Hne].
    + exfalso. apply Hnot. now left.
    + rewrite IH; [reflexivity|]. intros Hin. apply Hnot. now right.
Qed.

Lemma split_one_line (sep : char) (line : str) :
  ~ In sep line -> split sep line = [line].
Proof.
  induction line as [|c line IH]; intros Hnot; simpl; [reflexivity|].
  destruct (N.eqb_spec c sep) as [->|Hne].
  - exfalso. apply Hnot. now left.
  - rewrite IH; [reflexivity|]. intros Hin. apply Hnot. now right.
Qed.

(** [l[1:-1]] drops the first and the last element, whatever they
    are. *)
Lemma slice_1_m1 {A} (l : list A) : slice l 1 (-1) = removelast (tl l).
Proof.
  unfold slice, slice_index.
  destruct l as [|a l]; [reflexivity|].
  change (1 <? 0)%Z with false. change (-1 <? 0)%Z with true. cbv iota.
  rewrite Z.min_l by (simpl length; lia).
  rewrite Z.max_l by (simpl length; lia).
  change (Z.to_nat 1) with 1%nat. simpl skipn. simpl tl.
  replace (Z.to_nat (-1 + Z.of_nat (length (a :: l))) - 1)%nat
    with (length l - 1)%nat by (simpl length; lia).
  clear a. induction l as [|b l IH]; [reflexivity|].
  destruct l as [|c l]; [reflexivity|].
  simpl length in *. simpl removelast in *.
  replace (S (S (length l)) - 1)%nat with (S (S (length l) - 1)) by lia.
  simpl firstn. f_equal. exact IH.
Qed.

End TextFacts.

(* ===================================================================== *)
(** * Facts about the decoder                                              *)
(* ===================================================================== *)

Section JsonFacts.
Import Py Json.

Lemma consumes_mono {A} (r : scan A) (s1 s2 : str) :
  consumes r s1 -> (length s1 <= length s2)%nat -> consumes r s2.
Proof. destruct r; simpl; auto. lia. Qed.

Lemma skip_ws_le (s : str) (idx : nat) :
  (length (fst (skip_ws s idx)) <= length s)%nat.
Proof.
  revert idx. induction s as [|c r IH]; intros idx; simpl; [lia|].
  destruct (is_ws c); simpl; [|lia]. specialize (IH (S idx)). lia.
Qed.

Lemma scanstring_consumes_aux (n : nat) :
  forall s, (length s <= n)%nat ->
  forall idx begin acc, consumes (scanstring s idx begin acc) s.
Proof.
  induction n as [|n IH]; intros s Hlen idx begin acc.
  - destruct s; [exact I | simpl in Hlen; lia].
  - assert (Hrec : forall sub i a, (length sub < length s)%nat ->
                     consumes (scanstring sub i begin a) s).
    { intros sub i a Hsub. apply consumes_mono with sub; [apply IH|]; lia. }
    clear IH.
    destruct s as [|c r]; [exact I|].
    cbn [scanstring].
    destruct (c =? 34)%N; [simpl; lia|].
    destruct (c =? 92)%N.
    2:{ destruct (c <=? 31)%N; [exact I|]. apply Hrec. simpl; lia. }
    destruct r as [|e r1]; [exact I|].
    destruct (e =? 117)%N.
    2:{ destruct (escape e); [|exact I]. apply Hrec. simpl; lia. }
    destruct r1 as [|h1 [|h2 [|h3 [|h4 [|x r2]]]]]; try exact I.
    destruct (hex4 h1 h2 h3 h4) as [u|]; [|exact I].
    destruct r2 as [|e2 [|l1 [|l2 [|l3 [|l4 [|y r3]]]]]];
      try (apply Hrec; simpl; lia).
    destruct (is_high_surrogate u && (x =? 92)%N && (e2 =? 117)%N);
      [|apply Hrec; simpl; lia].
    destruct (hex4 l1 l2 l3 l4) as [u2|]; [|exact I].
    destruct (is_low_surrogate u2); apply Hrec; simpl; lia.
Qed.

Lemma scanstring_consumes (s : str) (idx begin : nat) (acc : str) :
  consumes (scanstring s idx begin acc) s.
Proof. now apply scanstring_consumes_aux with (length s). Qed.

Lemma span_digits_le (s : str) :
  (length (snd (span_digits s)) <= length s)%nat.
Proof.
  induction s as [|c r IH]; simpl; [lia|].
  destruct (is_digit c); [|simpl; lia].
  destruct (span_digits r) as [ds rest]. simpl in *. lia.
Qed.

Lemma match_digits_lt (s ds r : str) :
  match_digits s = Some (ds, r) -> (length r < length s)%nat.
Proof.
  destruct s as [|c r0]; [discriminate|]. unfold match_digits.
  destruct (c =? 48)%N.
  - intros H. injection H as <- <-. simpl. lia.
  - destruct (is_digit c) eqn:Hc; [|discriminate].
    pose proof (span_digits_le r0) as Hr0.
    simpl span_digits. rewrite Hc.
    destruct (span_digits r0) as [ds0 rest0].
    intros H. injection H as <- <-. simpl in *. lia.
Qed.

Lemma match_integer_lt (s : str) (neg : bool) (ds r : str) :
  match_integer s = Some (neg, ds, r) -> (length r < length s)%nat.
Proof.
  unfold match_integer.
  destruct s as [|c r0]; [discriminate|].
  destruct (c =? 45)%N.
  - destruct (match_digits r0) as [[ds0 rest]|] eqn:Hd; [|discriminate].
    apply match_digits_lt in Hd.
    intros H. injection H as _ _ <-. simpl. lia.
  - destruct (match_digits (c :: r0)) as [[ds0 rest]|] eqn:Hd; [|discriminate].
    apply match_digits_lt in Hd.
    intros H. now injection H as _ _ <-.
Qed.

Lemma match_frac_le (s fs r : str) :
  match_frac s = Some (fs, r) -> (length r <= length s)%nat.
Proof.
  unfold match_frac.
  destruct s as [|c [|d r0]]; try discriminate.
  destruct ((c =? 46)%N && is_digit d); [|discriminate].
  pose proof (span_digits_le (d :: r0)) as Hle.
  destruct (span_digits (d :: r0)) as [fs0 rest].
  intros H. injection H as <- <-. simpl in *. lia.
Qed.

Lemma exp_sign_le (s : str) : (length (snd (exp_sign s)) <= length s)%nat.
Proof.
  destruct s as [|c r]; simpl; [lia|].
  destruct (c =? 45)%N; [|destruct (c =? 43)%N]; simpl; lia.
Qed.

Lemma match_exp_le (s : str) (e : Z) (r : str) :
  match_exp s = Some (e, r) -> (length r <= length s)%nat.
Proof.
  unfold match_exp.
  destruct s as [|c r0]; [discriminate|].
  destruct ((c =? 101)%N || (c =? 69)%N); [|discriminate].
  pose proof (exp_sign_le r0) as Hsign.
  destruct (exp_sign r0) as [neg r1]. simpl snd in Hsign.
  pose proof (span_digits_le r1) as Hle.
  destruct (span_digits r1) as [[|d ds] rest]; [discriminate|].
  intros H. injection H as _ <-. simpl in *. lia.
Qed.

Lemma match_number_lt (s : str) (idx : nat) (v : pyobj) (rest : str) (i : nat) :
  match_number s idx = Some (v, rest, i) -> (length rest < length s)%nat.
Proof.
  unfold match_number.
  destruct (match_integer s) as [[[neg ds] r]|] eqn:Hint; [|discriminate].
  apply match_integer_lt in Hint.
  destruct (match_frac r) as [[fs r']|] eqn:Hfrac.
  - apply match_frac_le in Hfrac.
    destruct (match_exp r') as [[e r'']|] eqn:Hexp.
    + apply match_exp_le in Hexp.
      intros H. injection H as _ <- _. lia.
    + intros H. injection H as _ <- _. lia.
  - destruct (match_exp r) as [[e r'']|] eqn:Hexp.
    + apply match_exp_le in Hexp.
      intros H. injection H as _ <- _. lia.
    + intros H. injection H as _ <- _. lia.
Qed.

(** With two units of fuel for each character, and one more, a value is
    scanned to its end. *)
Lemma scan_consumes (fuel : nat) :
  (forall s idx, (2 * length s + 1 <= fuel)%nat -> consumes (scan_once fuel s idx) s)
  /\ (forall s idx d, (2 * length s + 2 <= fuel)%nat ->
        consumes (object_members fuel s idx d) s)
  /\ (forall s idx values, (2 * length s + 2 <= fuel)%nat ->
        consumes (array_items fuel s idx values) s).
Proof.
  induction fuel as [|fuel (IHonce & IHobject & IHarray)].
  { repeat split; intros; lia. }
  split; [|split].
  - (* scan_once *)
    intros s idx Hfuel. destruct s as [|c r]; [exact I|].
    cbn [scan_once].
    destruct (c =? 34)%N.
    { pose proof (scanstring_consumes r (S idx) idx []) as H.
      destruct (scanstring r (S idx) idx []); simpl in *; auto; lia. }
    destruct (c =? 123)%N.
    { pose proof (skip_ws_le r (S idx)) as Hws.
      destruct (skip_ws r (S idx)) as [s1 i1]. simpl fst in Hws.
      assert (Hmembers : consumes (object_members fuel s1 i1 []) (c :: r)).
      { apply consumes_mono with s1; [apply IHobject|]; simpl in *; lia. }
      destruct s1 as [|c1 r1]; [exact Hmembers|].
      destruct (c1 =? 125)%N; [simpl in *; lia | exact Hmembers]. }
    destruct (c =? 91)%N.
    { pose proof (skip_ws_le r (S idx)) as Hws.
      destruct (skip_ws r (S idx)) as [s1 i1]. simpl fst in Hws.
      assert (Hitems : consumes (array_items fuel s1 i1 []) (c :: r)).
      { apply consumes_mono with s1; [apply IHarray|]; simpl in *; lia. }
      destruct s1 as [|c1 r1]; [exact Hitems|].
      destruct (c1 =? 93)%N; [simpl in *; lia | exact Hitems]. }
    repeat match goal with
           | |- consumes (if startswith ?s ?p then _ else _) _ =>
               destruct (startswith s p);
               [unfold consumes; rewrite length_skipn; simpl; lia|]
           end.
    destruct (match_number (c :: r) idx) as [[[v rest] i]|] eqn:Hnum; [|exact I].
    apply match_number_lt in Hnum. exact Hnum.
  - (* object_members *)
    intros s idx d Hfuel. destruct s as [|c r]; [exact I|].
    cbn [object_members].
    destruct (c =? 34)%N; [|exact I].
    pose proof (scanstring_consumes r (S idx) idx []) as Hkey.
    destruct (scanstring r (S idx) idx []) as [key s2 i2| |]; [|exact I|exact Hkey].
    simpl in Hkey.
    pose proof (skip_ws_le s2 i2) as Hws3.
    destruct (skip_ws s2 i2) as [s3 i3]. simpl fst in Hws3.
    destruct s3 as [|c3 r3]; [exact I|].
    destruct (c3 =? 58)%N; [|exact I].
    pose proof (skip_ws_le r3 (S i3)) as Hws4.
    destruct (skip_ws r3 (S i3)) as [s4 i4]. simpl fst in Hws4.
    assert (Hval : consumes (scan_once fuel s4 i4) s4)
      by (apply IHonce; simpl in *; lia).
    destruct (scan_once fuel s4 i4) as [val s5 i5| |]; [|exact I|exact Hval].
    simpl in Hval.
    pose proof (skip_ws_le s5 i5) as Hws6.
    destruct (skip_ws s5 i5) as [s6 i6]. simpl fst in Hws6.
    destruct s6 as [|c6 r6]; [exact I|].
    destruct (c6 =? 125)%N; [simpl in *; lia|].
    destruct (c6 =? 44)%N; [|exact I].
    pose proof (skip_ws_le r6 (S i6)) as Hws7.
    destruct (skip_ws r6 (S i6)) as [s7 i7]. simpl fst in Hws7.
    apply consumes_mono with s7; [apply IHobject|]; simpl in *; lia.
  - (* array_items *)
    intros s idx values Hfuel.
    cbn [array_items].
    assert (Hval : consumes (scan_once fuel s idx) s) by (apply IHonce; lia).
    destruct (scan_once fuel s idx) as [val s1 i1| |]; [|exact I|exact Hval].
    simpl in Hval.
    pose proof (skip_ws_le s1 i1) as Hws2.
    destruct (skip_ws s1 i1) as [s2 i2]. simpl fst in Hws2.
    destruct s2 as [|c2 r2]; [exact I|].
    destruct (c2 =? 93)%N; [simpl in *; lia|].
    destruct (c2 =? 44)%N; [|exact I].
    pose proof (skip_ws_le r2 (S i2)) as Hws3.
    destruct (skip_ws r2 (S i2)) as [s3 i3]. simpl fst in Hws3.
    apply consumes_mono with s3; [apply IHarray|]; simpl in *; lia.
Qed.

(** [loads] returns a value or raises [JSONDecodeError]: the fuel it
    gives the scanner is enough for every document. *)
Lemma loads_total (doc : str) :
  (exists v, loads doc = Return v)
  \/ (exists msg pos lineno colno, loads doc = Raise (JSONDecodeError msg pos lineno colno)).
Proof.
  unfold loads.
  destruct (startswith doc [65279%N]).
  { right. unfold decode_error. destruct (line_col doc 0 1 1). eauto. }
  pose proof (skip_ws_le doc 0) as Hws.
  destruct (skip_ws doc 0) as [s0 i0]. simpl fst in Hws.
  pose proof (proj1 (scan_consumes (2 * S (length doc))) s0 i0 ltac:(lia)) as H.
  destruct (scan_once (2 * S (length doc)) s0 i0) as [obj rest end_|msg pos|].
  - destruct (skip_ws rest end_) as [[|c r] end'].
    + left. eauto.
    + right. unfold decode_error. destruct (line_col doc end' 1 1). eauto.
  - right. unfold decode_error. destruct (line_col doc pos 1 1). eauto.
  - elim H.
Qed.

End JsonFacts.

(* ===================================================================== *)
(** * The overall score                                                    *)
(* ===================================================================== *)

Section OverallScore.
Import Py Checker Spec.

(** The score depends on [is_valid] and [score] alone. *)
Lemma calculate_overall_score_fields (v : ValidationResult) (q : QualityAssessment) :
  _calculate_overall_score v q
  = _calculate_overall_score (validation_of (is_valid v)) (assessment_of (score q)).
Proof. reflexivity. Qed.

(** For an integer score the code truncates [weighted_sum]. *)
Lemma calculate_overall_score_weighted_sum (v : ValidationResult)
    (q : QualityAssessment) (z : Z) :
  score q = PyInt z ->
  _calculate_overall_score v q = bind (weighted_sum (is_valid v) z) int_of_float.
Proof.
  intros Hq. unfold _calculate_overall_score, weighted_sum. rewrite Hq.
  destruct (mul_float (PyInt (if is_valid v then 100 else 0)) lit_0_3); [|reflexivity].
  unfold bind at 1 3. destruct (mul_float (PyInt z) lit_0_7); reflexivity.
Qed.

(** The literals are the doubles nearest to 3/10 and 7/10: their
    mantissas have 53 bits and are off by less than half a unit. *)
Lemma literals_nearest :
  lit_0_3 = S754_finite false 5404319552844595 (-54)
  /\ lit_0_7 = S754_finite false 6305039478318694 (-53)
  /\ (2 ^ 52 <= 5404319552844595 < 2 ^ 53)%Z
  /\ (2 * Z.abs (10 * 5404319552844595 - 3 * 2 ^ 54) < 10)%Z
  /\ (2 ^ 52 <= 6305039478318694 < 2 ^ 53)%Z
  /\ (2 * Z.abs (10 * 6305039478318694 - 7 * 2 ^ 53) < 10)%Z.
Proof. repeat split; vm_compute; congruence. Qed.

Lemma in_scores_0_100 (z : Z) : (0 <= z <= 100)%Z -> In z scores_0_100.
Proof.
  intros Hz. unfold scores_0_100.
  replace z with (Z.of_nat (Z.to_nat z)) by lia.
  apply in_map, in_seq. lia.
Qed.

Lemma agrees_valid : forallb (agrees true) scores_0_100 = true.
Proof. vm_compute. reflexivity. Qed.

Lemma agrees_invalid :
  forallb (fun z => (z =? 90)%Z || agrees false z) scores_0_100 = true.
Proof. vm_compute. reflexivity. Qed.

Lemma agrees_spec (b : bool) (z : Z) (v : ValidationResult) (q : QualityAssessment) :
  is_valid v = b -> score q = PyInt z -> agrees b z = true ->
  _calculate_overall_score v q = Return (spec_overall_score b z).
Proof.
  intros Hv Hq H. rewrite calculate_overall_score_fields, Hv, Hq.
  unfold agrees in H.
  destruct (_calculate_overall_score _ _) as [o|e]; [|discriminate].
  apply Z.eqb_eq in H. now subst o.
Qed.

(** On the documented range of scores the code computes the exact floor,
    the pair (invalid, 90) apart. *)
Lemma overall_score_exact (v : ValidationResult) (q : QualityAssessment) (z : Z) :
  score q = PyInt z -> (0 <= z <= 100)%Z ->
  (is_valid v = false -> z <> 90%Z) ->
  _calculate_overall_score v q = Return (spec_overall_score (is_valid v) z).
Proof.
  intros Hq Hz H90. apply agrees_spec; [reflexivity | assumption |].
  apply in_scores_0_100 in Hz.
  destruct (is_valid v) eqn:Hv.
  - exact (proj1 (forallb_forall _ _) agrees_valid z Hz).
  - pose proof (proj1 (forallb_forall _ _) agrees_invalid z Hz) as H.
    apply orb_prop in H as [H|H]; [|exact H].
    apply Z.eqb_eq in H. now elim H90.
Qed.

(** At (invalid, 90) the product [90 * 0.7] is the double just below 63,
    and truncation gives 62. *)
Example overall_score_invalid_90 :
  _calculate_overall_score (validation_of false) (assessment_of (PyInt 90)) = Return 62%Z
  /\ spec_overall_score false 90 = 63%Z.
Proof. split; vm_compute; reflexivity. Qed.

(** The two scenarios of the test suite. *)
Example overall_score_valid_80 :
  _calculate_overall_score (validation_of true) (assessment_of (PyInt 80)) = Return 86%Z.
Proof. vm_compute. reflexivity. Qed.

Example overall_score_invalid_100 :
  _calculate_overall_score (validation_of false) (assessment_of (PyInt 100)) = Return 70%Z.
Proof. vm_compute. reflexivity. Qed.

Lemma overall_score_range (v : ValidationResult) (q : QualityAssessment) :
  score_in_range (score q) ->
  exists o, _calculate_overall_score v q = Return o /\ (0 <= o <= 100)%Z.
Proof.
  intros (z & Hq & Hz). rewrite calculate_overall_score_fields, Hq.
  assert (H : forallb (fun b => forallb (fun z =>
             match _calculate_overall_score (validation_of b) (assessment_of (PyInt z)) with
             | Return o => (0 <=? o)%Z && (o <=? 100)%Z
             | Raise _ => false
             end) scores_0_100) [true; false] = true)
    by (vm_compute; reflexivity).
  rewrite forallb_forall in H.
  assert (Hb : In (is_valid v) [true; false]) by (destruct (is_valid v); simpl; auto).
  specialize (H _ Hb). rewrite forallb_forall in H.
  specialize (H z (in_scores_0_100 Hz)).
  destruct (_calculate_overall_score _ _) as [o|e]; [|discriminate].
  exists o. split; [reflexivity|].
  apply andb_prop in H as [H1 H2]. apply Z.leb_le in H1, H2. lia.
Qed.

End OverallScore.

(* ===================================================================== *)
(** * The pipeline                                                         *)
(* ===================================================================== *)

Section Pipeline.
Import Py Checker Spec.

Variable validate : pyobj -> pyobj -> result unit.
Variable json_dumps : pyobj -> str.
Variable messages_create : Anthropic -> list Request -> Request -> result Message.

Local Abbreviation validate_structure := (validate_structure validate).
Local Abbreviation assess_quality := (assess_quality json_dumps messages_create).
Local Abbreviation check_response := (check_response validate json_dumps messages_create).

(** What [validate_structure] does with each outcome of the validator. *)
Lemma validate_structure_cases (response schema : pyobj) :
  validate_structure response schema =
  match validate response schema with
  | Return _ => Return {| is_valid := true; errors := []; warnings := [] |}
  | Raise e =>
      if is_ValidationError e
      then Return {| is_valid := false;
                     errors := [py "Schema validation failed: " ++ exn_message e];
                     warnings := [] |}
      else Raise e
  end.
Proof.
  unfold Checker.validate_structure, try_except.
  destruct (validate response schema) as [u|e]; reflexivity.
Qed.

(** How a report returned by [check_response] came about. *)
Lemma check_response_inv (self : ResponseQualityChecker) (response schema : pyobj)
    (calls calls' : list Request) (r : QualityReport) :
  check_response self response schema calls = (Return r, calls') ->
  validate_structure response schema = Return (validation r)
  /\ _calculate_overall_score (validation r) (quality r) = Return (overall_score r)
  /\ (if is_valid (validation r)
      then assess_quality self response schema calls = (Return (quality r), calls')
      else quality r = invalid_structure_assessment /\ calls' = calls).
Proof.
  unfold Checker.check_response, io_bind, io_ret.
  destruct (Checker.validate_structure validate response schema) as [v|e];
    [|discriminate].
  destruct (is_valid v) eqn:Hv.
  - destruct (Checker.assess_quality json_dumps messages_create self response schema calls)
      as [[qa|e] c]; [|discriminate].
    destruct (_calculate_overall_score v qa) as [o|e] eqn:Ho; [|discriminate].
    intros H. injection H as <- <-. simpl. rewrite Hv. auto.
  - destruct (_calculate_overall_score v invalid_structure_assessment) as [o|e] eqn:Ho;
      [|discriminate].
    intros H. injection H as <- <-. simpl. rewrite Hv. auto.
Qed.

(** The report's score follows the formula whenever the assessment's
    score is in range: an invalid structure comes with score 0, so the
    pair (invalid, 90) does not occur. *)
Lemma check_response_overall_score (self : ResponseQualityChecker)
    (response schema : pyobj) (calls calls' : list Request) (r : QualityReport) (z : Z) :
  check_response self response schema calls = (Return r, calls') ->
  score (quality r) = PyInt z -> (0 <= z <= 100)%Z ->
  overall_score r = spec_overall_score (is_valid (validation r)) z.
Proof.
  intros H Hq Hz. apply check_response_inv in H as (_ & Ho & Hq').
  rewrite (@overall_score_exact _ _ z Hq Hz) in Ho.
  - now injection Ho.
  - intros Hv. rewrite Hv in Hq'. destruct Hq' as [Hq' _].
    rewrite Hq' in Hq. simpl in Hq. injection Hq as <-. discriminate.
Qed.


(** Nothing deriving from [Exception] leaves [assess_quality]. *)
Lemma assess_quality_absorbs (self : ResponseQualityChecker)
    (response schema : pyobj) (calls : list Request) (e : exn) :
  fst (assess_quality self response schema calls) = Raise e ->
  is_Exception e = false.
Proof.
  unfold Checker.assess_quality, io_try_except, io_bind, create_message, io_ret.
  destruct (messages_create _ _ _) as [m|e0].
  - destruct (bind (content_0_text m) _) as [qa|e1]; [discriminate|].
    destruct (is_Exception e1) eqn:He1; simpl; [discriminate|].
    intros H. now injection H as <-.
  - destruct (is_Exception e0) eqn:He0; simpl; [discriminate|].
    intros H. now injection H as <-.
Qed.

(** C7. A result of [validate_structure] is valid exactly when it has no
    errors. When the validator accepts, the result is valid with no errors
    and no warnings; when the validator raises [ValidationError], the
    result is invalid with one error, made from the message of that one
    failure, and no warnings. *)
Theorem validate_structure_result (response schema : pyobj) :
  (forall u, validate response schema = Return u ->
     validate_structure response schema
     = Return {| is_valid := true; errors := []; warnings := [] |})
  /\ (forall e, validate response schema = Raise e -> is_ValidationError e = true ->
     validate_structure response schema
     = Return {| is_valid := false;
                 errors := [py "Schema validation failed: " ++ exn_message e];
                 warnings := [] |})
  /\ (forall v, validate_structure response schema = Return v ->
     (is_valid v = true <-> errors v = [])
     /\ warnings v = []
     /\ (is_valid v = false -> length (errors v) = 1%nat)).
Proof.
  rewrite validate_structure_cases. split; [|split].
  - intros u ->. reflexivity.
  - intros e -> ->. reflexivity.
  - intros v Hv.
    assert (Hcases : v = {| is_valid := true; errors := []; warnings := [] |}
                     \/ exists m, v = {| is_valid := false; errors := [m];
                                          warnings := [] |}).
    { destruct (validate response schema) as [u|e].
      - left. now injection Hv as <-.
      - destruct (is_ValidationError e); [|discriminate].
        right. eexists. now injection Hv as <-. }
    destruct Hcases as [->|[m ->]]; simpl; repeat split;
      intros; congruence.
Qed.

(** C2. When structure validation fails, [check_response] returns a report
    with overall score 0 whose assessment has score 0 and one issue, the
    critical issue about structure validation; the record of requests is
    unchanged, so the backend was not called. *)
Theorem invalid_structure_short_circuit (self : ResponseQualityChecker)
    (response schema : pyobj) (calls : list Request) (e : exn) :
  validate response schema = Raise e -> is_ValidationError e = true ->
  check_response self response schema calls =
  (Return {| validation :=
               {| is_valid := false;
                  errors := [py "Schema validation failed: " ++ exn_message e];
                  warnings := [] |};
             quality :=
               {| score := PyInt 0;
                  issues := [issue (py "critical") (py "Structure validation failed")];
                  explanation :=
                    PyStr (py "Response does not meet basic structure requirements");
                  recommendations :=
                    PyList [PyStr (py "Fix schema validation errors before quality assessment")] |};
             overall_score := 0 |},
   calls).
Proof.
  intros Hval He.
  unfold Checker.check_response, io_bind, io_ret.
  rewrite validate_structure_cases, Hval, He. reflexivity.
Qed.

(** C4. When the call to the backend raises an exception, [assess_quality]
    returns the fallback: score 0, one critical issue whose description ends
    with the text of the exception, the fixed explanation and one
    recommendation. The backend received this one request and no other. *)
Theorem assess_quality_backend_failure (self : ResponseQualityChecker)
    (response schema : pyobj) (calls : list Request) (e : exn) :
  messages_create (client self) calls (request_of json_dumps self response schema)
    = Raise e ->
  is_Exception e = true ->
  assess_quality self response schema calls =
  (Return {| score := PyInt 0;
             issues := [issue (py "critical") (py "Assessment failed: " ++ exn_str e)];
             explanation := PyStr (py "Unable to complete quality assessment");
             recommendations := PyList [PyStr (py "Verify API connectivity and try again")] |},
   calls ++ [request_of json_dumps self response schema]).
Proof.
  intros Hcall He.
  unfold Checker.assess_quality, io_try_except, io_bind, create_message, io_ret.
  fold (request_of json_dumps self response schema).
  rewrite Hcall, He. reflexivity.
Qed.

End Pipeline.

(* ===================================================================== *)
(** * The assessment parser                                                *)
(* ===================================================================== *)

Section Parser.
Import Py Checker Spec.

Lemma not_In_forallb (sep : char) (s : str) :
  forallb (fun c => negb (N.eqb c sep)) s = true -> ~ In sep s.
Proof.
  intros H Hin. rewrite forallb_forall in H. specialize (H _ Hin).
  now rewrite N.eqb_refl in H.
Qed.

(** Without a fence the reply is parsed as it is, stripped. *)
Lemma clean_no_fence (text : str) :
  startswith (strip text) (py "```") = false ->
  clean_assessment_text text = strip text.
Proof. unfold clean_assessment_text. now intros ->. Qed.

(** With a fence the first and the last line go. *)
Lemma clean_fence (text : str) :
  startswith (strip text) (py "```") = true ->
  clean_assessment_text text
  = join [newline] (removelast (tl (split newline (strip text)))).
Proof. unfold clean_assessment_text. intros ->. now rewrite slice_1_m1. Qed.

Lemma fenced_shape (tag : str) :
  fenced tag
  = 96%N :: ([96%N; 96%N] ++ tag ++ newline :: ok_object ++ [newline; 96%N; 96%N])
       ++ [96%N].
Proof.
  unfold fenced. change (py "```") with [96%N; 96%N; 96%N]. cbn [app].
  repeat (rewrite <- app_assoc; cbn [app]). reflexivity.
Qed.

Lemma fenced_lines (tag : str) :
  ~ In newline tag ->
  split newline (fenced tag) = [py "```" ++ tag; ok_object; py "```"].
Proof.
  intros Htag. unfold fenced.
  rewrite app_assoc. cbn [app].
  rewrite split_app.
  - rewrite split_app by (apply not_In_forallb; vm_compute; reflexivity).
    reflexivity.
  - intros Hin. apply in_app_or in Hin as [Hin|Hin]; [|now apply Htag].
    revert Hin. apply not_In_forallb. vm_compute. reflexivity.
Qed.

(** A fenced object, whatever the language tag and the whitespace around
    the block, is cleaned to the object alone. *)
Lemma clean_fenced (lead tag trail : str) :
  Forall (fun c => isspace c = true) lead ->
  Forall (fun c => isspace c = true) trail ->
  ~ In newline tag ->
  clean_assessment_text (lead ++ fenced tag ++ trail) = ok_object.
Proof.
  intros Hlead Htrail Htag.
  assert (Hstrip : strip (lead ++ fenced tag ++ trail) = fenced tag).
  { rewrite fenced_shape.
    rewrite (app_assoc lead).
    rewrite <- (app_assoc lead (96%N :: _ ++ [96%N]) trail).
    now apply strip_padded. }
  rewrite clean_fence; rewrite Hstrip.
  - rewrite fenced_lines by assumption. reflexivity.
  - unfold fenced. apply startswith_app.
Qed.

(** A decoding error, or a missing key, becomes the fallback built from
    that error. *)
Lemma parse_assessment_decode_error (text : str) (e : exn) :
  Json.loads (clean_assessment_text text) = Raise e ->
  _parse_assessment text
  = if is_JSONDecodeError_or_KeyError e then Return (parse_fallback e) else Raise e.
Proof. unfold _parse_assessment. now intros ->. Qed.

Lemma parse_assessment_missing_score (text : str) (d : list (str * pyobj)) :
  Json.loads (clean_assessment_text text) = Return (PyDict d) ->
  dict_lookup d (py "issues") = None ->
  dict_lookup d (py "score") = None ->
  _parse_assessment text = Return (parse_fallback (KeyError (py "score"))).
Proof.
  unfold _parse_assessment, build_assessment. intros -> Hissues Hscore. simpl.
  rewrite Hissues. simpl. rewrite Hscore. reflexivity.
Qed.

Lemma parse_assessment_missing_explanation (text : str) (d : list (str * pyobj))
    (s : pyobj) :
  Json.loads (clean_assessment_text text) = Return (PyDict d) ->
  dict_lookup d (py "issues") = None ->
  dict_lookup d (py "score") = Some s ->
  dict_lookup d (py "explanation") = None ->
  _parse_assessment text = Return (parse_fallback (KeyError (py "explanation"))).
Proof.
  unfold _parse_assessment, build_assessment. intros -> Hissues Hscore Hexpl. simpl.
  rewrite Hissues. simpl. rewrite Hscore. simpl. rewrite Hexpl. reflexivity.
Qed.

(** A parsed assessment is the fallback, or carries the value the reply
    has under ["score"], as it is. *)
Lemma parse_assessment_score (text : str) (qa : QualityAssessment) :
  _parse_assessment text = Return qa ->
  (exists e, qa = parse_fallback e)
  \/ (exists d, Json.loads (clean_assessment_text text) = Return (PyDict d)
                /\ dict_lookup d (py "score") = Some (score qa)).
Proof.
  unfold _parse_assessment, build_assessment, try_except, bind, getitem, get.
  intros H.
  repeat (match type of H with
          | context [match ?x with _ => _ end] =>
              lazymatch x with
              | context [match _ with _ => _ end] => fail
              | _ => destruct x eqn:?
              end
          end; cbv beta iota in H);
    try discriminate; injection H as <-;
    solve [ left; eexists; reflexivity
          | right; eexists; split; [reflexivity | simpl; assumption] ].
Qed.

(** What leaves the comprehension over the issues is a [KeyError] or a
    [TypeError]. *)
Lemma parse_issues_raises (items : list pyobj) (e : exn) :
  parse_issues items = Raise e ->
  (exists key, e = KeyError key) \/ (exists msg, e = TypeError msg).
Proof.
  induction items as [|item rest IH]; [discriminate|].
  cbn [parse_issues]. unfold parse_issue, getitem, get, bind.
  destruct item as [| | | | | |d];
    try (intros H; injection H as <-; right; eexists; reflexivity).
  destruct (dict_lookup d (py "severity")) as [sev|];
    [|intros H; injection H as <-; left; eexists; reflexivity].
  destruct (dict_lookup d (py "description")) as [desc|];
    [|intros H; injection H as <-; left; eexists; reflexivity].
  destruct (dict_lookup d (py "field")) as [fld|];
    (destruct (parse_issues rest) as [others|e']; [discriminate|];
     intros H; injection H as <-; now apply IH).
Qed.

Lemma iterate_raises (x : pyobj) (e : exn) :
  iterate x = Raise e -> exists msg, e = TypeError msg.
Proof.
  destruct x; try discriminate; intros H; injection H as <-; eexists; reflexivity.
Qed.

(** What leaves [build_assessment] is a [KeyError], a [TypeError] or an
    [AttributeError]. *)
Lemma build_assessment_raises (data : pyobj) (e : exn) :
  build_assessment data = Raise e ->
  (exists key, e = KeyError key)
  \/ (exists msg, e = TypeError msg)
  \/ (exists msg, e = AttributeError msg).
Proof.
  unfold build_assessment, bind, getitem, get. intros H.
  repeat (match type of H with
          | context [match ?x with _ => _ end] =>
              lazymatch x with
              | context [match _ with _ => _ end] => fail
              | _ => destruct x eqn:?
              end
          end; cbv beta iota in H);
    try discriminate; injection H as <-;
    try solve [ left; eexists; reflexivity
              | right; left; eexists; reflexivity
              | right; right; eexists; reflexivity ];
    try match goal with
        | E : iterate _ = Raise _ |- _ =>
            apply iterate_raises in E as [msg ->]; right; left; eexists; reflexivity
        end;
    match goal with
    | E : parse_issues _ = Raise _ |- _ =>
        apply parse_issues_raises in E as [[key ->]|[msg ->]];
        [left | right; left]; eexists; reflexivity
    end.
Qed.

(** Every reply is parsed to an assessment, or leaves the parser by an
    [AttributeError] or a [TypeError]: the decoder always ends, and its
    errors and the missing keys are caught. *)
Lemma parse_assessment_outcomes (text : str) :
  (exists qa, _parse_assessment text = Return qa)
  \/ (exists msg, _parse_assessment text = Raise (AttributeError msg))
  \/ (exists msg, _parse_assessment text = Raise (TypeError msg)).
Proof.
  unfold _parse_assessment, try_except.
  destruct (loads_total (clean_assessment_text text))
    as [[data ->]|(msg & pos & lineno & colno & ->)]; [|left; eexists; reflexivity].
  cbn [bind].
  destruct (build_assessment data) as [qa|e] eqn:Hbuild; [left; eexists; reflexivity|].
  destruct (build_assessment_raises _ Hbuild) as [[key ->]|[[msg ->]|[msg ->]]].
  - left. eexists. reflexivity.
  - right. right. eexists. reflexivity.
  - right. left. eexists. reflexivity.
Qed.

End Parser.

(* ===================================================================== *)
(** * Properties of the parser                                             *)
(* ===================================================================== *)

Section ParserProperties.
Import Py Checker Spec.

(** C5. A reply that is a fenced code block around the object
    [{"score": 90, "explanation": "ok"}] parses to score 90 with no issues
    and no recommendations, for every language tag after the opening fence
    and whatever whitespace surrounds the block. *)
Theorem fenced_reply_parsed (lead tag trail : str) :
  Forall (fun c => isspace c = true) lead ->
  Forall (fun c => isspace c = true) trail ->
  ~ In newline tag ->
  _parse_assessment (lead ++ fenced tag ++ trail)
  = Return {| score := PyInt 90; issues := [];
              explanation := PyStr (py "ok"); recommendations := PyList [] |}.
Proof.
  intros Hlead Htrail Htag. unfold _parse_assessment.
  rewrite clean_fenced by assumption.
  vm_compute. reflexivity.
Qed.

(** C10. When the reply starts with a fence, the text that is parsed is
    the reply without its first and its last line, whatever the last line
    is. A reply of at most two lines is left with nothing, and the result is
    the parse fallback: so it is for the object after a fence that is never
    closed. *)
Theorem fence_lines_dropped (text : str) :
  startswith text (py "```") = true ->
  clean_assessment_text text
  = join [newline] (removelast (tl (split newline (strip text))))
  /\ ((length (split newline (strip text)) <= 2)%nat ->
      _parse_assessment text
      = Return {| score := PyInt 50;
                  issues := [issue (py "warning")
                    (py "Could not parse assessment: Expecting value: line 1 column 1 (char 0)")];
                  explanation :=
                    PyStr (py "Assessment completed but response format was unexpected");
                  recommendations := PyList [PyStr (py "Review raw assessment output")] |}).
Proof.
  intros Hfence. apply startswith_fence_strip in Hfence.
  pose proof (clean_fence _ Hfence) as Hclean. split; [exact Hclean|].
  intros Hlen. unfold _parse_assessment. rewrite Hclean.
  destruct (split newline (strip text)) as [|l1 [|l2 [|l3 ls]]];
    try (simpl in Hlen; lia); vm_compute; reflexivity.
Qed.

(** C3. A reply that is a JSON array is not turned into the fallback:
    [data.get] raises [AttributeError], which the handler for
    [JSONDecodeError] and [KeyError] lets through. *)
Theorem parse_assessment_raises_on_array :
  _parse_assessment (py "[]")
  = Raise (AttributeError (py "'list' object has no attribute 'get'")).
Proof. vm_compute. reflexivity. Qed.

(** Other replies that leave the parser by an exception. *)
Example parse_assessment_raises_on_number :
  _parse_assessment (py "42")
  = Raise (AttributeError (py "'int' object has no attribute 'get'")).
Proof. vm_compute. reflexivity. Qed.

Example parse_assessment_raises_on_issues_number :
  _parse_assessment (py "{" ++ q "score" ++ py ": 90, " ++ q "explanation" ++ py ": "
                       ++ q "ok" ++ py ", " ++ q "issues" ++ py ": 5}")
  = Raise (TypeError (py "'int' object is not iterable")).
Proof. vm_compute. reflexivity. Qed.

Example parse_assessment_raises_on_issue_string :
  _parse_assessment (py "{" ++ q "score" ++ py ": 90, " ++ q "explanation" ++ py ": "
                       ++ q "ok" ++ py ", " ++ q "issues" ++ py ": [" ++ q "slow" ++ py "]}")
  = Raise (TypeError (py "string indices must be integers, not 'str'")).
Proof. vm_compute. reflexivity. Qed.

(** Replies the parser does turn into the fallback. *)
Example parse_assessment_not_json :
  _parse_assessment (py "The response looks fine.")
  = Return (parse_fallback (JSONDecodeError (py "Expecting value") 0 1 1)).
Proof. vm_compute. reflexivity. Qed.

Example parse_assessment_no_score :
  _parse_assessment (py "{" ++ q "explanation" ++ py ": " ++ q "ok" ++ py "}")
  = Return (parse_fallback (KeyError (py "score"))).
Proof. vm_compute. reflexivity. Qed.

Example parse_assessment_no_explanation :
  _parse_assessment (py "{" ++ q "score" ++ py ": 90}")
  = Return (parse_fallback (KeyError (py "explanation"))).
Proof. vm_compute. reflexivity. Qed.

Example parse_assessment_issue_without_severity :
  _parse_assessment (py "{" ++ q "score" ++ py ": 90, " ++ q "explanation" ++ py ": "
                       ++ q "ok" ++ py ", " ++ q "issues" ++ py ": [{}]}")
  = Return (parse_fallback (KeyError (py "severity"))).
Proof. vm_compute. reflexivity. Qed.

(** A complete reply. *)
Example parse_assessment_full :
  _parse_assessment
    (py "{" ++ q "score" ++ py ": 72, " ++ q "issues" ++ py ": [{" ++ q "severity"
        ++ py ": " ++ q "warning" ++ py ", " ++ q "description" ++ py ": " ++ q "empty name"
        ++ py ", " ++ q "field" ++ py ": " ++ q "name" ++ py "}], " ++ q "explanation"
        ++ py ": " ++ q "mostly fine" ++ py ", " ++ q "recommendations" ++ py ": ["
        ++ q "fill the name" ++ py "]}")
  = Return {| score := PyInt 72;
              issues := [{| severity := PyStr (py "warning");
                            description := PyStr (py "empty name");
                            field := PyStr (py "name") |}];
              explanation := PyStr (py "mostly fine");
              recommendations := PyList [PyStr (py "fill the name")] |}.
Proof. vm_compute. reflexivity. Qed.

End ParserProperties.

(** C5 at the tag [json], with a newline after the closing fence. *)
Lemma fenced_reply_parsed_witness :
  Checker._parse_assessment ([] ++ Spec.fenced (Py.py "json") ++ [Py.newline])
  = Py.Return Spec.ok_assessment.
Proof.
  apply (@fenced_reply_parsed [] (Py.py "json") [Py.newline]).
  - constructor.
  - repeat constructor.
  - vm_compute. intuition discriminate.
Defined.

(** C10 at the object after an unclosed fence. *)
Lemma fence_lines_dropped_witness :
  Checker.clean_assessment_text Spec.unclosed_fence = []
  /\ Checker._parse_assessment Spec.unclosed_fence
     = Py.Return (Checker.parse_fallback
                    (Py.JSONDecodeError (Py.py "Expecting value") 0 1 1))
  /\ Checker._parse_assessment Spec.unclosed_fence <> Py.Return Spec.ok_assessment.
Proof.
  assert (H : Py.startswith Spec.unclosed_fence (Py.py "```") = true) by reflexivity.
  destruct (fence_lines_dropped Spec.unclosed_fence H) as [Hclean Hparse].
  split; [exact Hclean|].
  assert (Hp := Hparse ltac:(vm_compute; lia)).
  split; [exact Hp|]. rewrite Hp. discriminate.
Defined.

(* ===================================================================== *)
(** * Properties of the checker                                            *)
(* ===================================================================== *)

Section CheckerProperties.
Import Py Checker Spec.

(** C1, as the code has it. For an integer score between 0 and 100 the
    overall score is the floor of [0.3 * structure + 0.7 * score], where
    [structure] is 100 for a valid structure and 0 otherwise; the pair of an
    invalid structure and score 90 is left aside. A report of
    [check_response] whose assessment has such a score follows the formula
    too. *)
Theorem overall_score_formula :
  (forall (v : ValidationResult) (q : QualityAssessment) (z : Z),
     score q = PyInt z -> (0 <= z <= 100)%Z ->
     (is_valid v = false -> z <> 90%Z) ->
     _calculate_overall_score v q = Return (spec_overall_score (is_valid v) z))
  /\ (forall validate json_dumps messages_create self response schema calls calls' r z,
     check_response validate json_dumps messages_create self response schema calls
       = (Return r, calls') ->
     score (quality r) = PyInt z -> (0 <= z <= 100)%Z ->
     overall_score r = spec_overall_score (is_valid (validation r)) z).
Proof.
  split.
  - intros v q z. apply overall_score_exact.
  - intros validate json_dumps messages_create self response schema calls calls' r z.
    apply check_response_overall_score.
Qed.

(** C1 fails below zero: the code truncates toward zero, where the
    formula takes the floor, of the rational sum and of the float alike. *)
Lemma overall_score_floor_counterexample :
  _calculate_overall_score (validation_of false) (assessment_of (PyInt (-1)))
    = Return 0%Z
  /\ spec_overall_score false (-1) = (-1)%Z
  /\ bind (weighted_sum false (-1)) (fun f => Return (floor_of_float f))
     = Return (Some (-1)%Z)
  /\ _calculate_overall_score (validation_of false) (assessment_of (PyInt (-1)))
     <> Return (spec_overall_score false (-1)).
Proof. repeat split; vm_compute; congruence. Qed.

(** The same through [check_response], for a valid structure and a reply
    with score -44. *)
Example overall_score_negative_reply :
  exists r calls,
    check_response accepts dumps_nothing
      (replies (py "{" ++ q "score" ++ py ": -44, " ++ q "explanation" ++ py ": "
                  ++ q "x" ++ py "}"))
      a_checker PyNone PyNone [] = (Return r, calls)
    /\ overall_score r = 0%Z
    /\ spec_overall_score true (-44) = (-1)%Z.
Proof. do 2 eexists. repeat split; vm_compute; reflexivity. Qed.

(** C6, as the code has it. The three assessments the pipeline makes up
    have scores 50, 0 and 0. A parsed assessment carries the value the reply
    has under ["score"], whatever it is. When the score of the assessment is
    an integer between 0 and 100, so is the overall score of the report. *)
Theorem score_ranges :
  (forall e, score (parse_fallback e) = PyInt 50)
  /\ (forall e, score (assess_fallback e) = PyInt 0)
  /\ score invalid_structure_assessment = PyInt 0
  /\ (forall text qa,
        _parse_assessment text = Return qa ->
        (exists e, qa = parse_fallback e)
        \/ (exists d, Json.loads (clean_assessment_text text) = Return (PyDict d)
                      /\ dict_lookup d (py "score") = Some (score qa)))
  /\ (forall validate json_dumps messages_create self response schema calls calls' r,
        check_response validate json_dumps messages_create self response schema calls
          = (Return r, calls') ->
        score_in_range (score (quality r)) ->
        (0 <= overall_score r <= 100)%Z).
Proof.
  split; [reflexivity|]. split; [reflexivity|]. split; [reflexivity|].
  split; [exact parse_assessment_score|].
  intros validate json_dumps messages_create self response schema calls calls' r Hr Hs.
  apply check_response_inv in Hr as (_ & Ho & _).
  destruct (@overall_score_range (validation r) (quality r) Hs) as (o & Ho' & Hrange).
  rewrite Ho' in Ho. injection Ho as <-. exact Hrange.
Qed.

(** C6 fails for a reply with score 150: the assessment keeps 150 and the
    report has overall score 135. *)
Lemma score_range_counterexample :
  _parse_assessment score_150
    = Return {| score := PyInt 150; issues := [];
                explanation := PyStr (py "x"); recommendations := PyList [] |}
  /\ ~ score_in_range (PyInt 150)
  /\ exists r calls,
       check_response accepts dumps_nothing (replies score_150)
         a_checker PyNone PyNone [] = (Return r, calls)
       /\ score (quality r) = PyInt 150
       /\ overall_score r = 135%Z
       /\ ~ (0 <= overall_score r <= 100)%Z.
Proof.
  split; [vm_compute; reflexivity|]. split.
  - intros (z & Hz & Hr). injection Hz as <-. lia.
  - do 2 eexists. split; [vm_compute; reflexivity|].
    simpl. repeat split; lia.
Qed.

(** C8. [check_consistency] raises [NotImplementedError] for every list of
    responses and every schema, and so returns no assessment. *)
Theorem check_consistency_not_implemented (responses : list pyobj) (schema : pyobj) :
  check_consistency responses schema
    = Raise (NotImplementedError (py "Batch consistency checking coming soon"))
  /\ forall qa, check_consistency responses schema <> Return qa.
Proof. split; [reflexivity | discriminate]. Qed.

(** C9. Construction raises [ValueError] when neither the argument nor
    the environment gives a non-empty key, and returns a checker holding
    the key when one of them does; a checker that exists holds a non-empty
    key. *)
Theorem init_requires_credential (environ : str -> option str) (key : option str) :
  (truthy key = false -> truthy (environ (py "ANTHROPIC_API_KEY")) = false ->
     __init__ environ key
     = Raise (ValueError
         (py "ANTHROPIC_API_KEY must be set in environment or passed to constructor")))
  /\ (forall k, k <> [] ->
        key = Some k \/ (truthy key = false /\ environ (py "ANTHROPIC_API_KEY") = Some k) ->
        __init__ environ key
        = Return {| api_key := k; client := {| client_api_key := k |};
                    model := py "claude-sonnet-4-20250514" |})
  /\ (forall c, __init__ environ key = Return c -> api_key c <> []).
Proof.
  unfold __init__. repeat split.
  - unfold or_. intros -> Henv.
    destruct (environ (py "ANTHROPIC_API_KEY")) as [[|c k]|]; try reflexivity.
    discriminate.
  - unfold or_. intros k Hk [->|[-> ->]];
      (destruct k as [|c k]; [now elim Hk | reflexivity]).
  - intros c.
    destruct (or_ key (environ (py "ANTHROPIC_API_KEY")))
      as [[|a k]|]; try discriminate.
    intros H. injection H as <-. discriminate.
Qed.

End CheckerProperties.

(* ===================================================================== *)
(** * The properties at concrete inputs                                    *)
(* ===================================================================== *)

Section Instances.
Import Py Checker Spec.

(** C1 at the two scenarios of the test suite and at a fenced-free reply
    with score 90. *)
Lemma overall_score_formula_witness :
  _calculate_overall_score (validation_of true) (assessment_of (PyInt 80)) = Return 86%Z
  /\ _calculate_overall_score (validation_of false) (assessment_of (PyInt 100))
     = Return 70%Z
  /\ exists r calls,
       check_response accepts dumps_nothing (replies ok_object)
         a_checker PyNone PyNone [] = (Return r, calls)
       /\ overall_score r = 93%Z.
Proof.
  destruct overall_score_formula as [Hcalc Hcheck].
  split; [|split].
  - apply (Hcalc (validation_of true) (assessment_of (PyInt 80)) 80%Z).
    + reflexivity.
    + lia.
    + discriminate.
  - apply (Hcalc (validation_of false) (assessment_of (PyInt 100)) 100%Z).
    + reflexivity.
    + lia.
    + intros _. lia.
  - do 2 eexists. split.
    + vm_compute. reflexivity.
    + match goal with
      | |- overall_score ?r = _ =>
          change (overall_score r = spec_overall_score (is_valid (validation r)) 90)
      end.
      eapply (Hcheck accepts dumps_nothing (replies ok_object)
                a_checker PyNone PyNone []).
      * vm_compute. reflexivity.
      * reflexivity.
      * lia.
Defined.

(** C6 at a reply with score 90. *)
Lemma score_ranges_witness :
  exists r calls,
    check_response accepts dumps_nothing (replies ok_object)
      a_checker PyNone PyNone [] = (Return r, calls)
    /\ (0 <= overall_score r <= 100)%Z.
Proof.
  destruct score_ranges as (_ & _ & _ & _ & Hcheck).
  do 2 eexists. split.
  - vm_compute. reflexivity.
  - eapply (Hcheck accepts dumps_nothing (replies ok_object) a_checker PyNone PyNone []).
    + vm_compute. reflexivity.
    + exists 90%Z. split; [reflexivity | lia].
Defined.

(** C9 with no key at all, and with a key in the environment alone. *)
Lemma init_requires_credential_witness :
  __init__ (fun _ => None) None
    = Raise (ValueError
        (py "ANTHROPIC_API_KEY must be set in environment or passed to constructor"))
  /\ __init__ (fun _ => Some (py "sk-test")) None
     = Return {| api_key := py "sk-test"; client := {| client_api_key := py "sk-test" |};
                 model := py "claude-sonnet-4-20250514" |}.
Proof.
  split.
  - apply (proj1 (init_requires_credential (fun _ => None) None)); reflexivity.
  - apply (proj1 (proj2 (init_requires_credential (fun _ => Some (py "sk-test")) None))).
    + discriminate.
    + right. split; reflexivity.
Defined.

(** C7 with a validator that accepts and with one that rejects. *)
Lemma validate_structure_result_witness :
  validate_structure accepts PyNone PyNone
    = Return {| is_valid := true; errors := []; warnings := [] |}
  /\ validate_structure (rejects (py "'name' is a required property")) PyNone PyNone
     = Return {| is_valid := false;
                 errors := [py "Schema validation failed: 'name' is a required property"];
                 warnings := [] |}.
Proof.
  split.
  - apply (proj1 (validate_structure_result accepts PyNone PyNone) tt). reflexivity.
  - apply (proj1 (proj2 (validate_structure_result
                           (rejects (py "'name' is a required property")) PyNone PyNone))
             (ValidationError (py "'name' is a required property")
                              (py "'name' is a required property")));
      reflexivity.
Defined.

(** C2 with a validator that rejects and a backend that would reply. *)
Lemma invalid_structure_short_circuit_witness :
  exists r,
    check_response (rejects (py "1 is not of type 'string'")) dumps_nothing
      (replies ok_object) a_checker PyNone PyNone [] = (Return r, [])
    /\ overall_score r = 0%Z
    /\ score (quality r) = PyInt 0
    /\ issues (quality r) = [issue (py "critical") (py "Structure validation failed")].
Proof.
  eexists. split.
  - apply (@invalid_structure_short_circuit
             (rejects (py "1 is not of type 'string'")) dumps_nothing (replies ok_object)
             a_checker PyNone PyNone []
             (ValidationError (py "1 is not of type 'string'")
                              (py "1 is not of type 'string'"))); reflexivity.
  - repeat split; reflexivity.
Defined.

(** C4 with a backend that refuses the connection. *)
Lemma assess_quality_backend_failure_witness :
  assess_quality dumps_nothing
    (fails (OtherException (py "APIConnectionError") (py "Connection error.")))
    a_checker PyNone PyNone []
  = (Return {| score := PyInt 0;
               issues := [issue (py "critical")
                                (py "Assessment failed: Connection error.")];
               explanation := PyStr (py "Unable to complete quality assessment");
               recommendations :=
                 PyList [PyStr (py "Verify API connectivity and try again")] |},
     [request_of dumps_nothing a_checker PyNone PyNone]).
Proof.
  apply (@assess_quality_backend_failure dumps_nothing
           (fails (OtherException (py "APIConnectionError") (py "Connection error.")))
           a_checker PyNone PyNone []
           (OtherException (py "APIConnectionError") (py "Connection error.")));
    reflexivity.
Defined.

(** A reply that is a JSON array reaches the caller of [assess_quality]
    as the fallback for a failed call, with score 0. *)
Example assess_quality_on_array :
  fst (assess_quality dumps_nothing (replies (py "[]")) a_checker PyNone PyNone [])
  = Return (assess_fallback
              (AttributeError (py "'list' object has no attribute 'get'"))).
Proof. vm_compute. reflexivity. Qed.

End Instances.

(* ===================================================================== *)
(** * More about text                                                      *)
(* ===================================================================== *)

Section MoreTextFacts.
Import Py.

Lemma lstrip_all_spaces (s : str) :
  Forall (fun c => isspace c = true) s -> lstrip s = [].
Proof. induction 1 as [|c s Hc _ IH]; simpl; [reflexivity|]. now rewrite Hc. Qed.

Lemma rstrip_spaces (s trail : str) :
  Forall (fun c => isspace c = true) trail -> rstrip (s ++ trail) = rstrip s.
Proof.
  intros Htrail. unfold rstrip. rewrite rev_app_distr.
  now rewrite lstrip_spaces by now apply Forall_rev.
Qed.

Lemma lstrip_app_spaces (s trail : str) :
  Forall (fun c => isspace c = true) trail ->
  lstrip (s ++ trail) = lstrip s ++ trail
  \/ (lstrip s = [] /\ lstrip (s ++ trail) = []).
Proof.
  intros Htrail. induction s as [|c s IH]; simpl.
  - right. split; [reflexivity|]. now apply lstrip_all_spaces.
  - destruct (isspace c); [exact IH | now left].
Qed.

(** [strip] removes the whitespace around a text and nothing else. *)
Lemma strip_spaces_around (lead s trail : str) :
  Forall (fun c => isspace c = true) lead ->
  Forall (fun c => isspace c = true) trail ->
  strip (lead ++ s ++ trail) = strip s.
Proof.
  intros Hlead Htrail. unfold strip. rewrite lstrip_spaces by assumption.
  destruct (lstrip_app_spaces s Htrail) as [->|[-> ->]].
  - now apply rstrip_spaces.
  - reflexivity.
Qed.

(** The lines of two texts joined by a separator are the lines of the
    one followed by the lines of the other. *)
Lemma split_app_lines (sep : char) (a b : str) :
  split sep (a ++ sep :: b) = split sep a ++ split sep b.
Proof.
  induction a as [|c a IH]; simpl.
  - now rewrite N.eqb_refl.
  - destruct (N.eqb c sep).
    + now rewrite IH.
    + rewrite IH. pose proof (@split_nonempty sep a) as Hne.
      destruct (split sep a) as [|l ls]; [now elim Hne | reflexivity].
Qed.

(** Joining the lines of a text gives the text back. *)
Lemma join_split (sep : char) (s : str) : join [sep] (split sep s) = s.
Proof.
  induction s as [|c r IH]; [reflexivity|]. simpl split.
  pose proof (@split_nonempty sep r) as Hne.
  destruct (N.eqb_spec c sep) as [->|Hc].
  - destruct (split sep r) as [|l ls]; [now elim Hne|].
    change (join [sep] ([] :: l :: ls)) with (sep :: join [sep] (l :: ls)).
    now rewrite IH.
  - destruct (split sep r) as [|l ls]; [now elim Hne|].
    destruct ls as [|l' ls].
    + simpl in *. now rewrite IH.
    + change (join [sep] ((c :: l) :: l' :: ls))
        with (c :: join [sep] (l :: l' :: ls)).
      now rewrite IH.
Qed.

End MoreTextFacts.

(* ===================================================================== *)
(** * More about the parser                                                *)
(* ===================================================================== *)

Section MoreParserProperties.
Import Py Checker Spec.

(** X2. Whitespace around the reply does not change what it parses to. *)
Theorem parse_assessment_ignores_whitespace (lead text trail : str) :
  Forall (fun c => isspace c = true) lead ->
  Forall (fun c => isspace c = true) trail ->
  _parse_assessment (lead ++ text ++ trail) = _parse_assessment text.
Proof.
  intros Hlead Htrail. unfold _parse_assessment, clean_assessment_text.
  now rewrite strip_spaces_around.
Qed.

(** A fenced block is cleaned to its interior, whatever the interior: the
    lines between the first line (the fence and its tag) and the last line
    are handed to the decoder as they are. *)
Lemma clean_fenced_block (lead tag body x trail : str) (b : char) :
  Forall (fun c => isspace c = true) lead ->
  Forall (fun c => isspace c = true) trail ->
  ~ In newline tag -> ~ In newline (x ++ [b]) -> isspace b = false ->
  clean_assessment_text
    (lead ++ (py "```" ++ tag ++ newline :: body ++ newline :: x ++ [b]) ++ trail)
  = body.
Proof.
  intros Hlead Htrail Htag Hlast Hb.
  assert (Hshape : py "```" ++ tag ++ newline :: body ++ newline :: x ++ [b]
                   = 96%N :: ([96%N; 96%N] ++ tag ++ newline :: body ++ newline :: x)
                       ++ [b]).
  { change (py "```") with [96%N; 96%N; 96%N]. cbn [app].
    repeat (rewrite <- app_assoc; cbn [app]). reflexivity. }
  assert (Hstrip : strip (lead ++ (py "```" ++ tag ++ newline :: body
                                      ++ newline :: x ++ [b]) ++ trail)
                   = py "```" ++ tag ++ newline :: body ++ newline :: x ++ [b]).
  { rewrite Hshape. now apply strip_padded. }
  rewrite clean_fence; rewrite Hstrip; [|apply startswith_app].
  rewrite app_assoc. rewrite split_app.
  - rewrite split_app_lines. rewrite (split_one_line newline (x ++ [b]) Hlast).
    cbn [tl]. rewrite removelast_last. apply join_split.
  - intros Hin. apply in_app_or in Hin as [Hin|Hin]; [|now apply Htag].
    revert Hin. apply not_In_forallb. vm_compute. reflexivity.
Qed.

(** X3. Fencing a reply does not change what it parses to: a block made of
    a fence line with any tag, the reply, and a last line of any content
    parses as the reply alone does. *)
Theorem fenced_reply_parses_as_interior (lead tag body x trail : str) (b : char) :
  Forall (fun c => isspace c = true) lead ->
  Forall (fun c => isspace c = true) trail ->
  ~ In newline tag -> ~ In newline (x ++ [b]) -> isspace b = false ->
  strip body = body -> startswith body (py "```") = false ->
  _parse_assessment
    (lead ++ (py "```" ++ tag ++ newline :: body ++ newline :: x ++ [b]) ++ trail)
  = _parse_assessment body.
Proof.
  intros Hlead Htrail Htag Hlast Hb Hbody Hnofence.
  unfold _parse_assessment.
  rewrite clean_fenced_block by assumption.
  rewrite clean_no_fence; rewrite Hbody; [reflexivity | assumption].
Qed.

(** X4. The issues of the assessment are made from the items of the reply one
    for one and in order: each item is an object, whose severity and
    description are taken as they are and whose field is [None] when
    absent. *)
Theorem parse_issues_one_for_one (items : list pyobj) (found : list QualityIssue) :
  parse_issues items = Return found ->
  Forall2 (fun item i =>
             exists d, item = PyDict d
               /\ dict_lookup d (py "severity") = Some (severity i)
               /\ dict_lookup d (py "description") = Some (description i)
               /\ field i = match dict_lookup d (py "field") with
                            | Some v => v
                            | None => PyNone
                            end)
          items found.
Proof.
  revert found. induction items as [|item rest IH]; intros found.
  - intros H. injection H as <-. constructor.
  - cbn [parse_issues]. unfold parse_issue, getitem, get, bind.
    destruct item as [| | | | | |d]; try discriminate.
    destruct (dict_lookup d (py "severity")) as [sev|] eqn:Hsev; [|discriminate].
    destruct (dict_lookup d (py "description")) as [desc|] eqn:Hdesc; [|discriminate].
    destruct (parse_issues rest) as [others|e] eqn:Hrest.
    2:{ destruct (dict_lookup d (py "field")); discriminate. }
    intros H.
    assert (Hfound : found =
              {| severity := sev; description := desc;
                 field := match dict_lookup d (py "field") with
                          | Some v => v
                          | None => PyNone
                          end |} :: others).
    { destruct (dict_lookup d (py "field")); now injection H as <-. }
    subst found. constructor; [|now apply IH].
    exists d. simpl. auto.
Qed.

(** X5. [score] and [explanation] are the keys a reply must have: without
    [issues] the assessment has no issue, and without [recommendations] it
    has the empty list. *)
Theorem parse_assessment_optional_keys (text : str) (d : list (str * pyobj))
    (s x : pyobj) :
  Json.loads (clean_assessment_text text) = Return (PyDict d) ->
  dict_lookup d (py "score") = Some s ->
  dict_lookup d (py "explanation") = Some x ->
  dict_lookup d (py "issues") = None ->
  _parse_assessment text
  = Return {| score := s; issues := []; explanation := x;
              recommendations := match dict_lookup d (py "recommendations") with
                                 | Some r => r
                                 | None => PyList []
                                 end |}.
Proof.
  unfold _parse_assessment, build_assessment. intros -> Hs Hx Hi. simpl.
  rewrite Hi. simpl. rewrite Hs. simpl. rewrite Hx. simpl.
  destruct (dict_lookup d (py "recommendations")); reflexivity.
Qed.

(** X6. One issue without a severity, or without a description, turns the
    whole reply into the fallback, whatever else the reply holds. *)
Theorem parse_assessment_malformed_issue (text : str) (d i : list (str * pyobj))
    (before after : list pyobj) (found : list QualityIssue) (key : str) :
  Json.loads (clean_assessment_text text) = Return (PyDict d) ->
  dict_lookup d (py "issues") = Some (PyList (before ++ PyDict i :: after)) ->
  parse_issues before = Return found ->
  (dict_lookup i (py "severity") = None /\ key = py "severity")
  \/ (dict_lookup i (py "severity") <> None
      /\ dict_lookup i (py "description") = None /\ key = py "description") ->
  _parse_assessment text = Return (parse_fallback (KeyError key)).
Proof.
  intros Hloads Hissues Hbefore Hkey.
  assert (Hraise : parse_issues (before ++ PyDict i :: after) = Raise (KeyError key)).
  { clear Hloads Hissues. revert found Hbefore.
    induction before as [|item rest IH]; intros found Hbefore.
    - cbn [app parse_issues]. unfold parse_issue, getitem, bind.
      destruct Hkey as [[-> ->]|(Hsev & -> & ->)]; [reflexivity|].
      destruct (dict_lookup i (py "severity")); [reflexivity | now elim Hsev].
    - cbn [app parse_issues] in *.
      destruct (parse_issue item) as [first|e]; [|discriminate].
      cbn [bind] in *.
      destruct (parse_issues rest) as [others|e] eqn:Hrest; [|discriminate].
      now rewrite (IH others eq_refl). }
  unfold _parse_assessment, build_assessment. rewrite Hloads. simpl.
  rewrite Hissues. cbn [iterate bind]. rewrite Hraise. reflexivity.
Qed.


End MoreParserProperties.

(* ===================================================================== *)
(** * More about the score and the pipeline                                *)
(* ===================================================================== *)

Section MoreOverallScore.
Import Py Checker Spec.

(** X7. A better assessment never lowers the overall score: on scores from 0
    to 100 the overall score does not decrease when the score grows, the
    validity being the same. *)
Theorem overall_score_monotone (v : ValidationResult) (q1 q2 : QualityAssessment)
    (a b : Z) :
  score q1 = PyInt a -> score q2 = PyInt b -> (0 <= a <= b)%Z -> (b <= 100)%Z ->
  exists o1 o2,
    _calculate_overall_score v q1 = Return o1
    /\ _calculate_overall_score v q2 = Return o2
    /\ (o1 <= o2)%Z.
Proof.
  intros Hq1 Hq2 Hab Hb.
  rewrite (calculate_overall_score_fields v q1), (calculate_overall_score_fields v q2).
  rewrite Hq1, Hq2.
  assert (H : forallb (fun valid => forallb (fun x => forallb (fun y =>
             match _calculate_overall_score (validation_of valid) (assessment_of (PyInt x)),
                   _calculate_overall_score (validation_of valid) (assessment_of (PyInt y))
             with
             | Return o1, Return o2 => negb (x <=? y)%Z || (o1 <=? o2)%Z
             | _, _ => false
             end) scores_0_100) scores_0_100) [true; false] = true)
    by (vm_compute; reflexivity).
  rewrite forallb_forall in H.
  assert (Hv : In (is_valid v) [true; false]) by (destruct (is_valid v); simpl; auto).
  specialize (H _ Hv). rewrite forallb_forall in H.
  assert (Ha : (0 <= a <= 100)%Z) by lia.
  assert (Hb' : (0 <= b <= 100)%Z) by lia.
  specialize (H a (in_scores_0_100 Ha)). rewrite forallb_forall in H.
  specialize (H b (in_scores_0_100 Hb')).
  destruct (_calculate_overall_score _ (assessment_of (PyInt a))) as [o1|]; [|discriminate].
  destruct (_calculate_overall_score _ (assessment_of (PyInt b))) as [o2|]; [|discriminate].
  exists o1, o2. repeat split.
  apply orb_prop in H as [H|H].
  - apply negb_true_iff, Z.leb_gt in H. lia.
  - now apply Z.leb_le.
Qed.

(** X8. For the same score between 0 and 100, a valid structure is worth 30
    or 31 points more than an invalid one; the overall score of an invalid
    structure is at most 70 and that of a valid one at least 30. *)
Theorem valid_structure_worth_30 (q : QualityAssessment) (z : Z) :
  score q = PyInt z -> (0 <= z <= 100)%Z ->
  exists invalid valid,
    _calculate_overall_score (validation_of false) q = Return invalid
    /\ _calculate_overall_score (validation_of true) q = Return valid
    /\ (invalid + 30 <= valid <= invalid + 31)%Z
    /\ (0 <= invalid <= 70)%Z /\ (30 <= valid <= 100)%Z.
Proof.
  intros Hq Hz.
  rewrite (calculate_overall_score_fields _ q), (calculate_overall_score_fields (validation_of true) q).
  rewrite Hq. cbn [is_valid validation_of].
  assert (H : forallb (fun x =>
             match _calculate_overall_score (validation_of false) (assessment_of (PyInt x)),
                   _calculate_overall_score (validation_of true) (assessment_of (PyInt x))
             with
             | Return i, Return o =>
                 (i + 30 <=? o)%Z && (o <=? i + 31)%Z && (0 <=? i)%Z && (i <=? 70)%Z
                 && (30 <=? o)%Z && (o <=? 100)%Z
             | _, _ => false
             end) scores_0_100 = true)
    by (vm_compute; reflexivity).
  rewrite forallb_forall in H. specialize (H z (in_scores_0_100 Hz)).
  destruct (_calculate_overall_score (validation_of false) _) as [i|]; [|discriminate].
  destruct (_calculate_overall_score (validation_of true) _) as [o|]; [|discriminate].
  exists i, o.
  repeat (apply andb_prop in H as [H ?]).
  repeat match goal with E : (_ <=? _)%Z = true |- _ => apply Z.leb_le in E end.
  repeat split; lia.
Qed.

End MoreOverallScore.

Section MorePipeline.
Import Py Checker Spec.

Variable validate : pyobj -> pyobj -> result unit.
Variable json_dumps : pyobj -> str.
Variable messages_create : Anthropic -> list Request -> Request -> result Message.

Local Abbreviation validate_structure := (validate_structure validate).
Local Abbreviation assess_quality := (assess_quality json_dumps messages_create).
Local Abbreviation check_response := (check_response validate json_dumps messages_create).
Local Abbreviation request_of := (request_of json_dumps).

Lemma assess_quality_reply_eq (self : ResponseQualityChecker)
    (response schema : pyobj) (calls : list Request) (m : Message) :
  messages_create (client self) calls (request_of self response schema) = Return m ->
  assess_quality self response schema calls =
  (Return match bind (content_0_text m) _parse_assessment with
          | Return qa => qa
          | Raise e => assess_fallback e
          end,
   calls ++ [request_of self response schema]).
Proof.
  intros Hcall.
  unfold Checker.assess_quality, io_try_except, io_bind, create_message, io_ret.
  fold (Spec.request_of json_dumps self response schema).
  rewrite Hcall.
  destruct (bind (content_0_text m) _parse_assessment) as [qa|e] eqn:Hbody;
    [reflexivity|].
  assert (He : is_Exception e = true).
  { unfold content_0_text in Hbody.
    destruct (content m) as [|[text|cls] blocks]; simpl in Hbody.
    - now injection Hbody as <-.
    - destruct (parse_assessment_outcomes text) as [[qa H]|[[msg H]|[msg H]]];
        rewrite H in Hbody; [discriminate | |]; now injection Hbody as <-.
    - now injection Hbody as <-. }
  now rewrite He.
Qed.



(** X13. What the validator raises other than [ValidationError], such as
    [SchemaError] for a malformed schema, leaves [validate_structure] and
    [check_response] as it is, and the backend is not called. *)
Theorem validator_error_propagates (self : ResponseQualityChecker)
    (response schema : pyobj) (calls : list Request) (e : exn) :
  validate response schema = Raise e -> is_ValidationError e = false ->
  validate_structure response schema = Raise e
  /\ check_response self response schema calls = (Raise e, calls).
Proof.
  intros Hval He.
  assert (Hvs : validate_structure response schema = Raise e)
    by now rewrite validate_structure_cases, Hval, He.
  split; [exact Hvs|].
  unfold Checker.check_response, io_bind, io_ret. now rewrite Hvs.
Qed.

(** X14. A reply whose score is a string, or null, passes the parser and makes
    [check_response] raise [TypeError] where it computes the overall score:
    no report is returned. *)
Theorem check_response_score_not_a_number (self : ResponseQualityChecker)
    (response schema : pyobj) (calls : list Request) (u : unit) (m : Message)
    (text : str) (qa : QualityAssessment) :
  validate response schema = Return u ->
  messages_create (client self) calls (request_of self response schema) = Return m ->
  content_0_text m = Return text ->
  _parse_assessment text = Return qa ->
  ((exists s, score qa = PyStr s) ->
     check_response self response schema calls
     = (Raise (TypeError (py "can't multiply sequence by non-int of type 'float'")),
        calls ++ [request_of self response schema]))
  /\ (score qa = PyNone ->
     check_response self response schema calls
     = (Raise (TypeError (py "unsupported operand type(s) for *: 'NoneType' and 'float'")),
        calls ++ [request_of self response schema])).
Proof.
  intros Hval Hcall Htext Hparse.
  assert (Hcheck : check_response self response schema calls
            = (bind (_calculate_overall_score
                       {| is_valid := true; errors := []; warnings := [] |} qa)
                    (fun o => Return
                       {| validation := {| is_valid := true; errors := []; warnings := [] |};
                          quality := qa; overall_score := o |}),
               calls ++ [request_of self response schema])).
  { unfold Checker.check_response, io_bind, io_ret.
    rewrite validate_structure_cases, Hval. cbn [is_valid].
    rewrite (assess_quality_reply_eq Hcall), Htext. cbn [bind].
    rewrite Hparse.
    destruct (_calculate_overall_score _ qa); reflexivity. }
  rewrite Hcheck. unfold _calculate_overall_score.
  split.
  - intros [s ->]. reflexivity.
  - intros ->. reflexivity.
Qed.


(** X10. When the backend returns a message, [assess_quality] returns an
    assessment: the one the parser makes of the text of the first block, or
    the score-0 fallback built from the exception when there is no first
    block, when it has no text or when the parser raises. *)
Theorem assess_quality_on_reply (self : ResponseQualityChecker)
    (response schema : pyobj) (calls : list Request) (m : Message) :
  messages_create (client self) calls (request_of self response schema) = Return m ->
  assess_quality self response schema calls =
  (Return match bind (content_0_text m) _parse_assessment with
          | Return qa => qa
          | Raise e => assess_fallback e
          end,
   calls ++ [request_of self response schema]).
Proof. apply assess_quality_reply_eq. Qed.

End MorePipeline.

(* ===================================================================== *)
(** * The summary of a report                                              *)
(* ===================================================================== *)

Section SummaryProperties.
Import Py Checker Spec.

Variable float_repr : float -> str.
Variable container_str : pyobj -> str.
Variable unicode_upper : str -> str.

Local Abbreviation summary := (summary float_repr container_str unicode_upper).
Local Abbreviation format_obj := (format_obj float_repr container_str).
Local Abbreviation issue_lines := (issue_lines float_repr container_str unicode_upper).
Local Abbreviation numbered := (numbered float_repr container_str).

Lemma numbered_length (i : nat) (recs : list pyobj) :
  length (numbered i recs) = length recs.
Proof. revert i. induction recs as [|rec rest IH]; intros i; simpl; auto. Qed.

(** Issues whose severities are strings all get their line. *)
Lemma issue_lines_strings (found : list QualityIssue) :
  Forall (fun i => exists s, severity i = PyStr s) found ->
  exists ls, issue_lines found = Return ls /\ length ls = length found.
Proof.
  induction 1 as [|i rest [s Hs] _ (ls & Hls & Hlen)].
  - exists []. auto.
  - cbn [Checker.issue_lines]. unfold issue_line, upper_method. rewrite Hs, Hls.
    eexists. split; [reflexivity|]. simpl. now rewrite Hlen.
Qed.

(** The first issue whose severity is not a string stops them all. *)
Lemma issue_lines_not_a_string (before after : list QualityIssue) (i : QualityIssue) :
  Forall (fun i => exists s, severity i = PyStr s) before ->
  (forall s, severity i <> PyStr s) ->
  issue_lines (before ++ i :: after)
  = Raise (AttributeError
             (py "'" ++ type_name (severity i) ++ py "' object has no attribute 'upper'")).
Proof.
  intros Hbefore Hi. induction Hbefore as [|j rest [s Hs] _ IH].
  - cbn [app Checker.issue_lines]. unfold issue_line, upper_method.
    destruct (severity i) as [| | | |s| |]; try reflexivity. now elim (Hi s).
  - cbn [app Checker.issue_lines]. unfold issue_line at 1, upper_method.
    rewrite Hs. cbn [bind]. now rewrite IH.
Qed.

(** X15. A report with no error, no warning, no issue and no recommendation
    is summarized in eight lines: the sections of the empty lists are left
    out, headers included. *)
Theorem summary_omits_empty_sections (r : QualityReport) :
  errors (validation r) = [] -> warnings (validation r) = [] ->
  issues (quality r) = [] -> truth (recommendations (quality r)) = false ->
  summary r = Return (join [newline]
    [ [newline] ++ rule;
      py "API Response Quality Report";
      rule;
      [newline] ++ py "Overall Score: " ++ decimal_Z (overall_score r)
        ++ py "/100" ++ [newline];
      py "Structure Validation: "
        ++ (if is_valid (validation r) then [10003%N] ++ py " PASSED"
            else [10007%N] ++ py " FAILED");
      [newline] ++ py "Quality Assessment Score: "
        ++ format_obj (score (quality r)) ++ py "/100";
      [newline] ++ format_obj (explanation (quality r));
      [newline] ++ rule ++ [newline] ]).
Proof.
  intros He Hw Hi Hr. unfold Checker.summary. rewrite He, Hw, Hi, Hr. reflexivity.
Qed.

(** X16. A report whose issues have strings for severities and whose
    recommendations are a list is always summarized; every list that is not
    empty adds a header and one line for each of its elements to the eight
    lines. *)
Theorem summary_of_well_formed_report (r : QualityReport) (recs : list pyobj) :
  Forall (fun i => exists s, severity i = PyStr s) (issues (quality r)) ->
  recommendations (quality r) = PyList recs ->
  exists lines,
    summary r = Return (join [newline] lines)
    /\ length lines
       = (8 + match errors (validation r) with [] => 0 | l => S (length l) end
            + match warnings (validation r) with [] => 0 | l => S (length l) end
            + match issues (quality r) with [] => 0 | l => S (length l) end
            + match recs with [] => 0 | l => S (length l) end)%nat.
Proof.
  intros Hsev Hrecs. unfold Checker.summary. rewrite Hrecs.
  destruct (issue_lines_strings Hsev) as (ls & Hls & Hlen).
  destruct (issues (quality r)) as [|i found] eqn:Hissues.
  - destruct recs as [|rec recs]; cbn [truth iterate bind];
      eexists; (split; [reflexivity|]);
      destruct (errors (validation r)), (warnings (validation r));
      repeat (rewrite ?length_app, ?length_map, ?numbered_length; cbn [length]);
      unfold str, char; lia.
  - rewrite Hls. cbn [bind].
    destruct recs as [|rec recs]; cbn [truth iterate bind];
      eexists; (split; [reflexivity|]);
      destruct (errors (validation r)), (warnings (validation r));
      repeat (rewrite ?length_app, ?length_map, ?numbered_length; cbn [length]);
      cbn [length] in Hlen; unfold str, char in *; lia.
Qed.

(** X17. A report with an issue whose severity is not a string, which the
    parser lets through, cannot be summarized: [summary] raises
    [AttributeError]. *)
Theorem summary_raises_on_severity (r : QualityReport)
    (before after : list QualityIssue) (i : QualityIssue) :
  issues (quality r) = before ++ i :: after ->
  Forall (fun i => exists s, severity i = PyStr s) before ->
  (forall s, severity i <> PyStr s) ->
  summary r
  = Raise (AttributeError
             (py "'" ++ type_name (severity i) ++ py "' object has no attribute 'upper'")).
Proof.
  intros Hissues Hbefore Hi. unfold Checker.summary.
  destruct (issues (quality r)) as [|first found].
  - now destruct before.
  - rewrite Hissues, issue_lines_not_a_string by assumption. reflexivity.
Qed.

(** X18. Recommendations that are a number other than zero, which the parser
    lets through as well, make [summary] raise [TypeError]. *)
Theorem summary_raises_on_recommendations (r : QualityReport) (z : Z) :
  Forall (fun i => exists s, severity i = PyStr s) (issues (quality r)) ->
  recommendations (quality r) = PyInt z -> z <> 0%Z ->
  summary r = Raise (TypeError (py "'int' object is not iterable")).
Proof.
  intros Hsev Hrecs Hz. unfold Checker.summary. rewrite Hrecs.
  destruct (issue_lines_strings Hsev) as (ls & Hls & _).
  assert (Ht : truth (PyInt z) = true)
    by (simpl; now destruct (Z.eqb_spec z 0)).
  rewrite Ht.
  destruct (issues (quality r)); [reflexivity|].
  rewrite Hls. reflexivity.
Qed.

End SummaryProperties.

Section ReportSummary.
Import Py Checker Spec.

Variable validate : pyobj -> pyobj -> result unit.
Variable json_dumps : pyobj -> str.
Variable messages_create : Anthropic -> list Request -> Request -> result Message.
Variable float_repr : float -> str.
Variable container_str : pyobj -> str.
Variable unicode_upper : str -> str.

(** X19. The report [check_response] returns for a response that fails
    validation is summarized in fourteen lines: the failed badge, the
    validation error, score 0, and the one critical issue and the one
    recommendation of the made-up assessment. *)
Theorem summary_of_invalid_structure (self : ResponseQualityChecker)
    (response schema : pyobj) (calls calls' : list Request) (e : exn)
    (r : QualityReport) :
  validate response schema = Raise e -> is_ValidationError e = true ->
  check_response validate json_dumps messages_create self response schema calls
    = (Return r, calls') ->
  summary float_repr container_str unicode_upper r = Return (join [newline]
    [ [newline] ++ rule;
      py "API Response Quality Report";
      rule;
      [newline] ++ py "Overall Score: 0/100" ++ [newline];
      py "Structure Validation: " ++ [10007%N] ++ py " FAILED";
      [newline] ++ py "Validation Errors:";
      bullet ++ py "Schema validation failed: " ++ exn_message e;
      [newline] ++ py "Quality Assessment Score: 0/100";
      [newline] ++ py "Response does not meet basic structure requirements";
      [newline] ++ py "Issues Found (1):";
      py "  [CRITICAL] Structure validation failed";
      [newline] ++ py "Recommendations:";
      py "  1. Fix schema validation errors before quality assessment";
      [newline] ++ rule ++ [newline] ]).
Proof.
  intros Hval He.
  unfold Checker.check_response, io_bind, io_ret.
  rewrite validate_structure_cases, Hval, He. cbn [is_valid].
  intros H. injection H as <- _.
  generalize (exn_message e). intros message.
  vm_compute. reflexivity.
Qed.

End ReportSummary.

(* ===================================================================== *)
(** * The further properties at concrete inputs                            *)
(* ===================================================================== *)

Section MoreInstances.
Import Py Checker Spec.

(** X2 at the object between a space, newlines and a tab. *)
Lemma parse_assessment_ignores_whitespace_witness :
  _parse_assessment ([32%N; newline] ++ ok_object ++ [newline; 9%N])
  = _parse_assessment ok_object.
Proof.
  apply parse_assessment_ignores_whitespace; repeat constructor.
Defined.

(** X3 at the object in a block tagged [json] and closed by a fence. *)
Lemma fenced_reply_parses_as_interior_witness :
  _parse_assessment
    ([] ++ (py "```" ++ py "json" ++ newline :: ok_object ++ newline :: py "``" ++ [96%N])
        ++ [newline])
  = _parse_assessment ok_object.
Proof.
  apply fenced_reply_parses_as_interior.
  - constructor.
  - repeat constructor.
  - vm_compute. intuition discriminate.
  - vm_compute. intuition discriminate.
  - reflexivity.
  - reflexivity.
  - reflexivity.
Defined.

(** X4 at two issues, the second without a field. *)
Lemma parse_issues_one_for_one_witness :
  Forall2 (fun item i =>
             exists d, item = PyDict d
               /\ dict_lookup d (py "severity") = Some (severity i)
               /\ dict_lookup d (py "description") = Some (description i)
               /\ field i = match dict_lookup d (py "field") with
                            | Some v => v
                            | None => PyNone
                            end)
          two_issues
          [ {| severity := PyStr (py "warning"); description := PyStr (py "slow");
               field := PyStr (py "name") |};
            {| severity := PyStr (py "info"); description := PyStr (py "fine");
               field := PyNone |} ].
Proof.
  apply parse_issues_one_for_one. reflexivity.
Defined.

(** X5 at the object with the two required keys alone. *)
Lemma parse_assessment_optional_keys_witness :
  _parse_assessment ok_object
  = Return {| score := PyInt 90; issues := []; explanation := PyStr (py "ok");
              recommendations := PyList [] |}.
Proof.
  apply (@parse_assessment_optional_keys ok_object
           [(py "score", PyInt 90); (py "explanation", PyStr (py "ok"))]
           (PyInt 90) (PyStr (py "ok"))); reflexivity.
Defined.

(** X6 at a reply whose only issue has no severity. *)
Lemma parse_assessment_malformed_issue_witness :
  _parse_assessment issue_without_severity
  = Return (parse_fallback (KeyError (py "severity"))).
Proof.
  apply (@parse_assessment_malformed_issue issue_without_severity
           [(py "score", PyInt 90); (py "explanation", PyStr (py "ok"));
            (py "issues", PyList [PyDict [(py "description", PyStr (py "slow"))]])]
           [(py "description", PyStr (py "slow"))] [] [] [] (py "severity")).
  - reflexivity.
  - reflexivity.
  - reflexivity.
  - left. split; reflexivity.
Defined.

(** X7 at scores 40 and 80 of a valid structure. *)
Lemma overall_score_monotone_witness :
  exists o1 o2,
    _calculate_overall_score (validation_of true) (assessment_of (PyInt 40)) = Return o1
    /\ _calculate_overall_score (validation_of true) (assessment_of (PyInt 80)) = Return o2
    /\ (o1 <= o2)%Z.
Proof.
  apply (@overall_score_monotone (validation_of true)
           (assessment_of (PyInt 40)) (assessment_of (PyInt 80)) 40 80).
  - reflexivity.
  - reflexivity.
  - lia.
  - lia.
Defined.

(** X8 at score 90, where the difference is 31. *)
Lemma valid_structure_worth_30_witness :
  exists invalid valid,
    _calculate_overall_score (validation_of false) (assessment_of (PyInt 90))
      = Return invalid
    /\ _calculate_overall_score (validation_of true) (assessment_of (PyInt 90))
       = Return valid
    /\ (invalid + 30 <= valid <= invalid + 31)%Z
    /\ (0 <= invalid <= 70)%Z /\ (30 <= valid <= 100)%Z.
Proof.
  apply (@valid_structure_worth_30 (assessment_of (PyInt 90)) 90).
  - reflexivity.
  - lia.
Defined.

(** X10 with a backend that replies the object. *)
Lemma assess_quality_on_reply_witness :
  assess_quality dumps_nothing (replies ok_object) a_checker PyNone PyNone []
  = (Return ok_assessment, [request_of dumps_nothing a_checker PyNone PyNone]).
Proof.
  apply (@assess_quality_on_reply dumps_nothing (replies ok_object)
           a_checker PyNone PyNone [] {| content := [TextBlock ok_object] |}).
  reflexivity.
Defined.


(** X13 with a validator that finds the schema malformed. *)
Lemma validator_error_propagates_witness :
  validate_structure (fun _ _ => Raise (SchemaError (py "bad type") (py "bad type")))
    PyNone PyNone
  = Raise (SchemaError (py "bad type") (py "bad type"))
  /\ check_response (fun _ _ => Raise (SchemaError (py "bad type") (py "bad type")))
       dumps_nothing (replies ok_object) a_checker PyNone PyNone []
     = (Raise (SchemaError (py "bad type") (py "bad type")), []).
Proof.
  apply (@validator_error_propagates
           (fun _ _ => Raise (SchemaError (py "bad type") (py "bad type")))
           dumps_nothing (replies ok_object) a_checker PyNone PyNone []);
    reflexivity.
Defined.

(** X14 with a backend that replies a score in words. *)
Lemma check_response_score_not_a_number_witness :
  check_response accepts dumps_nothing (replies score_high) a_checker PyNone PyNone []
  = (Raise (TypeError (py "can't multiply sequence by non-int of type 'float'")),
     [request_of dumps_nothing a_checker PyNone PyNone]).
Proof.
  apply (proj1 (@check_response_score_not_a_number accepts dumps_nothing
                  (replies score_high) a_checker PyNone PyNone [] tt
                  {| content := [TextBlock score_high] |} score_high
                  {| score := PyStr (py "high"); issues := [];
                     explanation := PyStr (py "x"); recommendations := PyList [] |}
                  eq_refl eq_refl eq_refl ltac:(vm_compute; reflexivity))).
  exists (py "high"). reflexivity.
Defined.

(** X15 at a report with nothing to list. *)
Lemma summary_omits_empty_sections_witness :
  summary no_float_repr no_container_str no_unicode_upper clean_report
  = Return (join [newline]
      [ [newline] ++ rule;
        py "API Response Quality Report";
        rule;
        [newline] ++ py "Overall Score: 93/100" ++ [newline];
        py "Structure Validation: " ++ [10003%N] ++ py " PASSED";
        [newline] ++ py "Quality Assessment Score: 90/100";
        [newline] ++ py "ok";
        [newline] ++ rule ++ [newline] ]).
Proof.
  apply (@summary_omits_empty_sections no_float_repr no_container_str no_unicode_upper
           clean_report); reflexivity.
Defined.

(** X16 at a report with one error, two warnings, two issues and one
    recommendation: eighteen lines. *)
Lemma summary_of_well_formed_report_witness :
  exists lines,
    summary no_float_repr no_container_str no_unicode_upper busy_report
      = Return (join [newline] lines)
    /\ length lines = 18%nat.
Proof.
  apply (@summary_of_well_formed_report no_float_repr no_container_str no_unicode_upper
           busy_report [PyStr (py "fill the name")]).
  - repeat constructor; eexists; reflexivity.
  - reflexivity.
Defined.

(** X17 at a report whose second issue has a number for severity. *)
Lemma summary_raises_on_severity_witness :
  summary no_float_repr no_container_str no_unicode_upper
    (report_with_issue {| severity := PyInt 1; description := PyStr (py "slow");
                          field := PyNone |} (PyList []))
  = Raise (AttributeError (py "'int' object has no attribute 'upper'")).
Proof.
  apply (@summary_raises_on_severity no_float_repr no_container_str no_unicode_upper
           (report_with_issue {| severity := PyInt 1; description := PyStr (py "slow");
                                 field := PyNone |} (PyList []))
           [issue (py "info") (py "fine")] []
           {| severity := PyInt 1; description := PyStr (py "slow"); field := PyNone |}).
  - reflexivity.
  - repeat constructor. eexists. reflexivity.
  - discriminate.
Defined.

(** X18 at a report whose recommendations are the number 5. *)
Lemma summary_raises_on_recommendations_witness :
  summary no_float_repr no_container_str no_unicode_upper
    (report_with_issue (issue (py "warning") (py "slow")) (PyInt 5))
  = Raise (TypeError (py "'int' object is not iterable")).
Proof.
  apply (@summary_raises_on_recommendations no_float_repr no_container_str
           no_unicode_upper
           (report_with_issue (issue (py "warning") (py "slow")) (PyInt 5)) 5).
  - repeat constructor; eexists; reflexivity.
  - reflexivity.
  - discriminate.
Defined.

(** X19 with a validator that misses a required property. *)
Lemma summary_of_invalid_structure_witness :
  exists text,
    summary no_float_repr no_container_str no_unicode_upper
      {| validation :=
           {| is_valid := false;
              errors := [py "Schema validation failed: 'name' is a required property"];
              warnings := [] |};
         quality := invalid_structure_assessment;
         overall_score := 0 |}
    = Return text.
Proof.
  eexists.
  apply (@summary_of_invalid_structure
           (rejects (py "'name' is a required property")) dumps_nothing (replies ok_object)
           no_float_repr no_container_str no_unicode_upper
           a_checker PyNone PyNone [] []
           (ValidationError (py "'name' is a required property")
                            (py "'name' is a required property"))); reflexivity.
Defined.

End MoreInstances.
